(** * dev-toolkit / skills / gibram: the indexing CLI and the MCP tool facade

    A shallow embedding of [index-docs.py] and [mcp-server.py].  Both scripts
    are glue around two opaque collaborators: an OpenAI-compatible embeddings
    endpoint and the GibRAM indexing engine.  The collaborators are taken as
    interfaces (type classes over an abstract provider or engine state); the
    glue itself (truncation, batch fallback, chunked submission, backend
    selection, message formatting) is translated function by function.

    Python values are modelled as follows.
    - [str] is [string]; a character is a code point below 256, so [length]
      and slicing count code points as Python does on that range.
    - [int] is [Z], [len] is a [nat].
    - [float] is the kernel's binary64 [float].
    - Raised exceptions are values of [BaseException]; a computation that can
      print, call a collaborator or raise is a state-and-error function
      [M W A := W -> (BaseException + A) * W].  Effects performed before an
      exception is raised stay in the world. *)

From Stdlib Require Import List String Ascii ZArith Lia Bool PeanoNat.
From Stdlib Require Import DecimalString PrimFloat.
Import ListNotations.
Open Scope string_scope.
Set Warnings "-abstract-large-number".

(* ================================================================== *)
(** ** Python primitives *)
(* ================================================================== *)

Module Py.

Definition str := string.

(** Subclasses of Python's [Exception] that the collaborators and the
    built-ins used by the scripts raise.  Each carries its message. *)
Inductive Exception : Type :=
| APIError (msg : str)            (* provider or engine call failed *)
| IndexError (msg : str)          (* [xs[0]] on an empty list *)
| OSError (msg : str)             (* [Path.read_text] *)
| UnicodeDecodeError (msg : str) (* [Path.read_text(encoding="utf-8")] *)
| ValueError (msg : str).         (* [int(s)] *)

(** [str(e)] *)
Definition str_of_exception (e : Exception) : str :=
  match e with
  | APIError m | IndexError m | OSError m | UnicodeDecodeError m
  | ValueError m => m
  end.

(** [SystemExit] derives from [BaseException] only: [except Exception]
    does not catch it. *)
Inductive BaseException : Type :=
| Exc (e : Exception)
| SystemExit (code : Z).

(** Truthiness of a [str] and of a [list]. *)
Definition truthy (s : str) : bool :=
  match s with EmptyString => false | String _ _ => true end.

Definition nonempty {A} (xs : list A) : bool :=
  match xs with [] => false | _ :: _ => true end.

(** [s[:n]] for [n >= 0]. *)
Fixpoint slice_to (n : nat) (s : str) : str :=
  match n, s with
  | O, _ => EmptyString
  | S _, EmptyString => EmptyString
  | S n', String c s' => String c (slice_to n' s')
  end.

(** [str(n)] for an [int]. *)
Definition str_of_nat (n : nat) : str := NilEmpty.string_of_uint (Nat.to_uint n).
Definition str_of_Z (z : Z) : str := NilZero.string_of_int (Z.to_int z).

Definition nl : str := String (ascii_of_nat 10) EmptyString.

(** [sep.join(parts)] *)
Definition join (sep : str) (parts : list str) : str := String.concat sep parts.

(** [needle in hay], as a proposition and as a test. *)
Definition contains (hay needle : str) : Prop :=
  exists pre post, hay = pre ++ needle ++ post.

Fixpoint containsb (hay needle : str) : bool :=
  String.prefix needle hay
  || match hay with
     | EmptyString => false
     | String _ hay' => containsb hay' needle
     end.

(** [repr(s)] on code points below 256, after CPython's [unicode_repr]:
    single quotes unless the text has a single quote and no double quote;
    the quote in use and the backslash get a backslash; tab, newline and
    carriage return become [\t], [\n], [\r]; any other character that is
    not printable becomes [\xhh].  Below 256 the printable characters are
    0x20..0x7e and 0xa1..0xff without 0xad. *)
Definition squote : ascii := ascii_of_nat 39.
Definition dquote : ascii := ascii_of_nat 34.
Definition backslash : ascii := ascii_of_nat 92.

Definition isprintable (c : ascii) : bool :=
  let n := nat_of_ascii c in
  (((32 <=? n) && (n <=? 126)) || ((161 <=? n) && negb (n =? 173)))%nat.

Definition hex_digit (n : nat) : ascii :=
  nth n (list_ascii_of_string "0123456789abcdef") "0"%char.

Definition hex_escape (c : ascii) : str :=
  let n := nat_of_ascii c in
  String backslash
    (String "x" (String (hex_digit (n / 16)) (String (hex_digit (n mod 16)) EmptyString))).

Definition escape_char (quote c : ascii) : str :=
  if Ascii.eqb c quote || Ascii.eqb c backslash then
    String backslash (String c EmptyString)
  else if Ascii.eqb c (ascii_of_nat 9) then String backslash "t"
  else if Ascii.eqb c (ascii_of_nat 10) then String backslash "n"
  else if Ascii.eqb c (ascii_of_nat 13) then String backslash "r"
  else if isprintable c then String c EmptyString
  else hex_escape c.

Fixpoint escape (quote : ascii) (s : str) : str :=
  match s with
  | EmptyString => EmptyString
  | String c s' => escape_char quote c ++ escape quote s'
  end.

Fixpoint has_char (c : ascii) (s : str) : bool :=
  match s with
  | EmptyString => false
  | String d s' => Ascii.eqb d c || has_char c s'
  end.

Definition repr_quote (s : str) : ascii :=
  if has_char squote s && negb (has_char dquote s) then dquote else squote.

Definition repr (s : str) : str :=
  let quote := repr_quote s in
  String quote (escape quote s ++ String quote EmptyString).

(** [s.lower()] on code points below 256: A..Z and the capital letters
    0xc0..0xde (without the multiplication sign 0xd7) move up by 32. *)
Definition lower_char (c : ascii) : ascii :=
  let n := nat_of_ascii c in
  if (((65 <=? n) && (n <=? 90))
      || ((192 <=? n) && (n <=? 222) && negb (n =? 215)))%nat
  then ascii_of_nat (n + 32) else c.

Fixpoint lower (s : str) : str :=
  match s with
  | EmptyString => EmptyString
  | String c s' => String (lower_char c) (lower s')
  end.

(** [os.environ] and [os.environ.get(key)] / [os.environ.get(key, default)] *)
Definition Environ : Type := list (str * str).

Fixpoint environ_get (env : Environ) (key : str) : option str :=
  match env with
  | [] => None
  | (k, v) :: env' => if String.eqb k key then Some v else environ_get env' key
  end.

Definition environ_get_default (env : Environ) (key default : str) : str :=
  match environ_get env key with Some v => v | None => default end.

(** The part of the file system the scripts look at, for paths given as
    their string form.  The fields stand for the calls named beside them
    where these return; what [pathlib] itself raises on a path string it
    cannot resolve (an unknown [~user], an embedded NUL) is not part of the
    model. *)
Record FileSystem : Type := {
  resolve : str -> str;              (* [Path(p).expanduser().resolve()] *)
  exists_ : str -> bool;             (* [p.exists()] *)
  sorted_rglob_md : str -> list str; (* [sorted(p.rglob("*.md"))] *)
  read_text : str -> Exception + str;(* [p.read_text(encoding="utf-8")] *)
  name : str -> str                  (* [p.name] *)
}.

(** The process, its standard streams and an external collaborator of
    state [X] whose calls are recorded as events of type [Ev]. *)
Record World (X Ev : Type) : Type := mkWorld {
  ext : X;
  trace : list Ev;
  stdout : list str;
  stderr : list str
}.
Arguments mkWorld {X Ev}.
Arguments ext {X Ev}.
Arguments trace {X Ev}.
Arguments stdout {X Ev}.
Arguments stderr {X Ev}.

Definition M (W A : Type) : Type := W -> (BaseException + A) * W.

Definition ret {W A} (a : A) : M W A := fun w => (inr a, w).

Definition bind {W A B} (m : M W A) (k : A -> M W B) : M W B :=
  fun w => match m w with
           | (inr a, w') => k a w'
           | (inl e, w') => (inl e, w')
           end.

Definition raise {W A} (e : BaseException) : M W A := fun w => (inl e, w).

(** [try: body  except Exception as e: handler(e)] *)
Definition try_except {W A} (body : M W A) (handler : Exception -> M W A) : M W A :=
  fun w => match body w with
           | (inl (Exc e), w') => handler e w'
           | r => r
           end.

(** [print(line)] and [print(line, file=sys.stderr)] *)
Definition print {X Ev} (line : str) : M (World X Ev) unit :=
  fun w => (inr tt, mkWorld (ext w) (trace w) (stdout w ++ [line]) (stderr w)).

Definition eprint {X Ev} (line : str) : M (World X Ev) unit :=
  fun w => (inr tt, mkWorld (ext w) (trace w) (stdout w) (stderr w ++ [line])).

(** [sys.exit(code)] *)
Definition sys_exit {W A} (code : Z) : M W A := raise (SystemExit code).

(** [xs[0]] *)
Definition getitem0 {W A} (xs : list A) : M W A :=
  match xs with
  | x :: _ => ret x
  | [] => raise (Exc (IndexError "list index out of range"))
  end.

End Py.
Import Py.

Declare Scope py_scope.
Delimit Scope py_scope with py.
Notation "x <- m ;; k" := (bind m (fun x => k))
  (at level 61, m at next level, right associativity) : py_scope.
Notation "m ;;; k" := (bind m (fun _ => k))
  (at level 61, right associativity) : py_scope.
Open Scope py_scope.

(* ================================================================== *)
(** ** The gibram library, as the scripts use it *)
(* ================================================================== *)

Module Gibram.

(** An extractor or embedder object: its class and what its constructor
    was given.  [OllamaExtractor] and [OllamaEmbedder] are the subclasses
    [index-docs.py] declares. *)
Inductive ExtractorClass : Type := OpenAIExtractor | OllamaExtractor.
Inductive EmbedderClass : Type := OpenAIEmbedder | OllamaEmbedder.

Record Extractor : Type := {
  extractor_class : ExtractorClass;
  extractor_model : str;
  extractor_api_key : option str;
  extractor_base_url : option str
}.

Record Embedder : Type := {
  embedder_class : EmbedderClass;
  embedder_model : str;
  embedder_api_key : option str;
  embedder_base_url : option str
}.

Record GibRAMIndexer : Type := {
  session_id : str;
  host : str;
  port : Z;
  extractor : Extractor;
  embedder : Embedder
}.

Record IndexStats : Type := {
  entities_extracted : Z;
  relationships_extracted : Z
}.

(** [description] is [None] when the attribute is absent or is [None]. *)
Record Entity : Type := {
  title : str;
  score : float;
  description : option str
}.

Record QueryResult : Type := { entities : list Entity }.

(** The engine behind an indexer, of state [G]: construction, indexing and
    ranked retrieval each reach the engine, answer or raise, and leave the
    engine in a new state. *)
Class Engine (G : Type) : Type := {
  engine_new : GibRAMIndexer -> G -> (Exception + unit) * G;
  engine_index_documents :
    GibRAMIndexer -> list str -> G -> (Exception + IndexStats) * G;
  engine_query :
    GibRAMIndexer -> str -> Z -> G -> (Exception + QueryResult) * G
}.

(** What the engine was asked, with its answer. *)
Inductive EngineCall : Type :=
| CallNew (indexer : GibRAMIndexer) (result : Exception + unit)
| CallIndexDocuments (indexer : GibRAMIndexer) (docs : list str)
                     (result : Exception + IndexStats)
| CallQuery (indexer : GibRAMIndexer) (query : str) (top_k : Z)
            (result : Exception + QueryResult).

(** The world of a script that talks to the engine. *)
Definition GW (G : Type) : Type := World G EngineCall.

Section Calls.

Context {G : Type} `{Engine G}.

Definition lift_result {A} (r : Exception + A) : BaseException + A :=
  match r with inl e => inl (Exc e) | inr a => inr a end.

(** [GibRAMIndexer(session_id=..., host=..., port=..., extractor=...,
    embedder=...)] *)
Definition new_indexer (indexer : GibRAMIndexer) : M (GW G) GibRAMIndexer :=
  fun w =>
    let (r, g') := engine_new indexer (ext w) in
    (lift_result (match r with inl e => inl e | inr _ => inr indexer end),
     mkWorld g' (trace w ++ [CallNew indexer r]) (stdout w) (stderr w)).

(** [indexer.index_documents(docs)] *)
Definition index_documents (indexer : GibRAMIndexer) (docs : list str)
  : M (GW G) IndexStats :=
  fun w =>
    let (r, g') := engine_index_documents indexer docs (ext w) in
    (lift_result r,
     mkWorld g' (trace w ++ [CallIndexDocuments indexer docs r])
             (stdout w) (stderr w)).

(** [indexer.query(query, top_k=top_k)] *)
Definition query (indexer : GibRAMIndexer) (q : str) (top_k : Z)
  : M (GW G) QueryResult :=
  fun w =>
    let (r, g') := engine_query indexer q top_k (ext w) in
    (lift_result r,
     mkWorld g' (trace w ++ [CallQuery indexer q top_k r])
             (stdout w) (stderr w)).

End Calls.

End Gibram.
Import Gibram.

(* ================================================================== *)
(** ** index-docs.py *)
(* ================================================================== *)

Module IndexDocs.

Definition OLLAMA_BASE_URL : str := "http://localhost:11434/v1".
Definition DEFAULT_EXTRACTOR_MODEL : str := "llama3.2".
Definition DEFAULT_EMBEDDER_MODEL : str := "nomic-embed-text".

(** *** The embeddings endpoint *)

Record Embedding : Type := { embedding : list float }.
Record CreateEmbeddingResponse : Type := { data : list Embedding }.

(** [client.embeddings.create(model=..., input=...)] against a provider of
    state [P]: it answers or raises, and the provider moves on. *)
Class EmbeddingsClient (P : Type) : Type := {
  embeddings_create :
    str -> list str -> P -> (Exception + CreateEmbeddingResponse) * P
}.

(** [OllamaExtractor.__init__] and [OllamaEmbedder.__init__]: the parent's
    constructor with the key [ollama], then a client bound to [base_url]. *)
Definition OllamaExtractor_init (model base_url : str) : Extractor :=
  {| extractor_class := OllamaExtractor;
     extractor_model := model;
     extractor_api_key := Some "ollama";
     extractor_base_url := Some base_url |}.

Definition OllamaEmbedder_init (model base_url : str) : Embedder :=
  {| embedder_class := OllamaEmbedder;
     embedder_model := model;
     embedder_api_key := Some "ollama";
     embedder_base_url := Some base_url |}.

(** [OpenAIExtractor(model=..., api_key=...)] and
    [OpenAIEmbedder(model=..., api_key=...)] *)
Definition OpenAIExtractor_init (model : str) (api_key : option str) : Extractor :=
  {| extractor_class := OpenAIExtractor;
     extractor_model := model;
     extractor_api_key := api_key;
     extractor_base_url := None |}.

Definition OpenAIEmbedder_init (model : str) (api_key : option str) : Embedder :=
  {| embedder_class := OpenAIEmbedder;
     embedder_model := model;
     embedder_api_key := api_key;
     embedder_base_url := None |}.

(** *** class OllamaEmbedder *)

(** The world of the embedder: the provider, and as trace the [input]
    of every request delivered to it, oldest first. *)
Definition EW (P : Type) : Type := World P (list str).

Section OllamaEmbedder.

Context {P : Type} `{EmbeddingsClient P}.

Definition MAX_CHARS : nat := 6000.

(** [[0.0] * 768], which the source remarks to be the nomic-embed-text
    dimension. *)
Definition zero_vector : list float := repeat 0%float 768.

(** [self.client.embeddings.create(model=self.model, input=input)] *)
Definition create (self : Embedder) (input : list str)
  : M (EW P) CreateEmbeddingResponse :=
  fun w =>
    let (r, p') := embeddings_create (embedder_model self) input (ext w) in
    (match r with inl e => inl (Exc e) | inr resp => inr resp end,
     mkWorld p' (trace w ++ [input]) (stdout w) (stderr w)).

(** [t[:self.MAX_CHARS] if t else t] *)
Definition truncate (t : str) : str :=
  if truthy t then slice_to MAX_CHARS t else t.

(** One round of the fallback loop: the inner [try] / [except]. *)
Definition embed_single (self : Embedder) (text : str)
  : M (EW P) (list float) :=
  try_except
    (r <- create self [text] ;;
     item <- getitem0 (data r) ;;
     ret (embedding item))
    (fun inner =>
       print ("  [embed] Single embed failed, using zero vector: "
              ++ str_of_exception inner) ;;;
       ret zero_vector).

(** [for text in truncated: ... result.append(...)], from the value
    [result] has when the loop reaches [texts]. *)
Fixpoint embed_each (self : Embedder) (texts : list str)
         (result : list (list float)) : M (EW P) (list (list float)) :=
  match texts with
  | [] => ret result
  | text :: rest =>
      v <- embed_single self text ;;
      embed_each self rest (result ++ [v])%list
  end.

Definition embed (self : Embedder) (texts : list str)
  : M (EW P) (list (list float)) :=
  let truncated := map truncate texts in
  try_except
    (resp <- create self truncated ;;
     ret (map embedding (data resp)))
    (fun e =>
       if Nat.eqb (List.length truncated) 1 then raise (Exc e)
       else
         print ("  [embed] Batch of " ++ str_of_nat (List.length truncated)
                ++ " failed (" ++ str_of_exception e
                ++ "), retrying individually") ;;;
         embed_each self truncated []).

End OllamaEmbedder.

(** *** main *)

Record Args : Type := {
  arg_dir : str;
  arg_session_id : str;
  arg_host : str;             (* default [localhost] *)
  arg_port : Z;               (* default 6161 *)
  arg_batch_size : Z;         (* default 50 *)
  arg_ollama_url : str;       (* default [OLLAMA_BASE_URL] *)
  arg_extractor_model : str;  (* default [DEFAULT_EXTRACTOR_MODEL] *)
  arg_embedder_model : str;   (* default [DEFAULT_EMBEDDER_MODEL] *)
  arg_openai : bool;
  arg_openai_embed : bool
}.

(** The [if args.openai: ... elif args.openai_embed: ... else: ...] of
    [main]: the extractor, the embedder and the label of the backend. *)
Definition select_backend (args : Args) (api_key : option str)
  : Extractor * Embedder * str :=
  if arg_openai args then
    (OpenAIExtractor_init "gpt-4o" api_key,
     OpenAIEmbedder_init "text-embedding-3-small" api_key,
     "OpenAI (gpt-4o + text-embedding-3-small)")
  else if arg_openai_embed args then
    (OllamaExtractor_init (arg_extractor_model args) (arg_ollama_url args),
     OpenAIEmbedder_init "text-embedding-3-small" api_key,
     "Hybrid (Ollama " ++ arg_extractor_model args
       ++ " + OpenAI text-embedding-3-small)")
  else
    (OllamaExtractor_init (arg_extractor_model args) (arg_ollama_url args),
     OllamaEmbedder_init (arg_embedder_model args) (arg_ollama_url args),
     "Ollama (" ++ arg_extractor_model args ++ " / "
       ++ arg_embedder_model args ++ ")").

(** The variables the indexing loop updates. *)
Record Totals : Type := {
  total_entities : Z;
  total_relationships : Z;
  batch : list str
}.

(** U+2192, written as its UTF-8 bytes: it lies outside the range of [ascii]. *)
Definition RIGHTWARDS_ARROW : str :=
  String (ascii_of_nat 226) (String (ascii_of_nat 134) (String (ascii_of_nat 146) EmptyString)).

Section Main.

Context {G : Type} `{Engine G}.
Variable fs : FileSystem.
Variable environ : Environ.

(** The body of [for i, path in enumerate(md_files, 1)] for one file,
    [n] being [len(md_files)]. *)
Definition index_step (args : Args) (indexer : GibRAMIndexer) (n i : nat)
           (path : str) (st : Totals) : M (GW G) Totals :=
  batch1 <- match read_text fs path with
            | inr text => ret (batch st ++ [text])%list
            | inl e =>
                print ("  Skipped " ++ name fs path ++ ": " ++ str_of_exception e) ;;;
                ret (batch st)
            end ;;
  if (arg_batch_size args <=? Z.of_nat (List.length batch1))%Z || Nat.eqb i n then
    if nonempty batch1 then
      stats <- index_documents indexer batch1 ;;
      print ("  [" ++ str_of_nat i ++ "/" ++ str_of_nat n ++ "] +"
             ++ str_of_Z (entities_extracted stats) ++ " entities, +"
             ++ str_of_Z (relationships_extracted stats) ++ " relationships") ;;;
      ret {| total_entities := total_entities st + entities_extracted stats;
             total_relationships :=
               total_relationships st + relationships_extracted stats;
             batch := [] |}
    else
      ret {| total_entities := total_entities st;
             total_relationships := total_relationships st;
             batch := batch1 |}
  else
    ret {| total_entities := total_entities st;
           total_relationships := total_relationships st;
           batch := batch1 |}.

(** The loop from its [i]-th round on, [files] being the files left. *)
Fixpoint index_loop (args : Args) (indexer : GibRAMIndexer) (n i : nat)
         (files : list str) (st : Totals) : M (GW G) Totals :=
  match files with
  | [] => ret st
  | path :: rest =>
      st' <- index_step args indexer n i path st ;;
      index_loop args indexer n (S i) rest st'
  end.

(** Lines 137 to 162: the batch pipeline and the final report. *)
Definition run_pipeline (args : Args) (indexer : GibRAMIndexer)
           (md_files : list str) : M (GW G) Totals :=
  st <- index_loop args indexer (List.length md_files) 1 md_files
          {| total_entities := 0; total_relationships := 0; batch := [] |} ;;
  print (nl ++ "Done.") ;;;
  print ("  Total entities:      " ++ str_of_Z (total_entities st)) ;;;
  print ("  Total relationships: " ++ str_of_Z (total_relationships st)) ;;;
  print ("  Session ID:          " ++ arg_session_id args) ;;;
  ret st.

Definition main (args : Args) : M (GW G) unit :=
  let docs_dir := resolve fs (arg_dir args) in
  (if negb (exists_ fs docs_dir) then
     eprint ("Error: Directory not found: " ++ docs_dir) ;;;
     sys_exit 1
   else ret tt) ;;;
  let md_files := sorted_rglob_md fs docs_dir in
  (if negb (nonempty md_files) then
     print ("No markdown files found in " ++ docs_dir) ;;;
     sys_exit 0
   else ret tt) ;;;
  api_key <-
    (if arg_openai args || arg_openai_embed args then
       let api_key := environ_get environ "OPENAI_API_KEY" in
       if negb (match api_key with Some k => truthy k | None => false end) then
         eprint "Error: OPENAI_API_KEY required with --openai / --openai-embed" ;;;
         sys_exit 1
       else ret api_key
     else ret None) ;;
  let '(extractor, embedder, backend) := select_backend args api_key in
  print ("Found " ++ str_of_nat (List.length md_files)
         ++ " markdown files in " ++ docs_dir) ;;;
  print ("Session:  " ++ arg_session_id args ++ " " ++ RIGHTWARDS_ARROW ++ " "
         ++ arg_host args ++ ":" ++ str_of_Z (arg_port args)) ;;;
  print ("Backend:  " ++ backend ++ nl) ;;;
  indexer <- new_indexer {| session_id := arg_session_id args;
                            host := arg_host args;
                            port := arg_port args;
                            extractor := extractor;
                            embedder := embedder |} ;;
  run_pipeline args indexer md_files ;;;
  ret tt.

(** The exit status of the process that runs [m]: what [sys.exit] was
    given, 0 when [m] returns, 1 when an exception reaches the top. *)
Definition exit_status {A} (m : M (GW G) A) (w : GW G) : Z * GW G :=
  match m w with
  | (inr _, w') => (0%Z, w')
  | (inl (SystemExit code), w') => (code, w')
  | (inl (Exc _), w') => (1%Z, w')
  end.

End Main.

End IndexDocs.

(* ================================================================== *)
(** ** mcp-server.py *)
(* ================================================================== *)

Module McpServer.

(** The module-level names, read from the environment at import. *)
Record Globals : Type := {
  GIBRAM_HOST : str;
  GIBRAM_PORT : Z;
  OLLAMA_BASE_URL : str;
  EXTRACTOR_MODEL : str;
  EMBEDDER_MODEL : str;
  USE_OPENAI : bool;
  OPENAI_API_KEY : str
}.

(** Lines 21 to 27, for Python's [int] on a [str] given as [py_int]. *)
Definition load_globals (py_int : str -> Exception + Z) (environ : Environ)
  : Exception + Globals :=
  match py_int (environ_get_default environ "GIBRAM_PORT" "6161") with
  | inl e => inl e
  | inr p =>
      inr {| GIBRAM_HOST := environ_get_default environ "GIBRAM_HOST" "localhost";
             GIBRAM_PORT := p;
             OLLAMA_BASE_URL :=
               environ_get_default environ "OLLAMA_BASE_URL" "http://localhost:11434/v1";
             EXTRACTOR_MODEL :=
               environ_get_default environ "GIBRAM_EXTRACTOR_MODEL" "llama3.2";
             EMBEDDER_MODEL :=
               environ_get_default environ "GIBRAM_EMBEDDER_MODEL" "nomic-embed-text";
             USE_OPENAI :=
               String.eqb (lower (environ_get_default environ "GIBRAM_BACKEND" "ollama"))
                          "openai";
             OPENAI_API_KEY := environ_get_default environ "OPENAI_API_KEY" EmptyString |}
  end.

Section Tools.

Context {G : Type} `{Engine G}.
Variable g : Globals.
Variable fs : FileSystem.
(** [f"{x:.3f}"] *)
Variable format_3f : float -> str.

Definition _indexer (session_id : str) : M (GW G) GibRAMIndexer :=
  let '(extractor, embedder) :=
    if USE_OPENAI g then
      ({| extractor_class := OpenAIExtractor;
          extractor_model := "gpt-4o";
          extractor_api_key := Some (OPENAI_API_KEY g);
          extractor_base_url := None |},
       {| embedder_class := OpenAIEmbedder;
          embedder_model := "text-embedding-3-small";
          embedder_api_key := Some (OPENAI_API_KEY g);
          embedder_base_url := None |})
    else
      ({| extractor_class := OpenAIExtractor;
          extractor_model := EXTRACTOR_MODEL g;
          extractor_api_key := Some "ollama";
          extractor_base_url := Some (OLLAMA_BASE_URL g) |},
       {| embedder_class := OpenAIEmbedder;
          embedder_model := EMBEDDER_MODEL g;
          embedder_api_key := Some "ollama";
          embedder_base_url := Some (OLLAMA_BASE_URL g) |})
  in
  new_indexer {| session_id := session_id;
                 host := GIBRAM_HOST g;
                 port := GIBRAM_PORT g;
                 extractor := extractor;
                 embedder := embedder |}.

(** [for i, entity in enumerate(results.entities, 1): lines.append(...)] *)
Fixpoint entity_lines (i : nat) (es : list Entity) (lines : list str) : list str :=
  match es with
  | [] => lines
  | entity :: rest =>
      let line := str_of_nat i ++ ". " ++ title entity ++ "  (score: "
                  ++ format_3f (score entity) ++ ")" in
      let lines1 := (lines ++ [line])%list in
      let lines2 :=
        match description entity with
        | Some d => if truthy d then (lines1 ++ [("   " ++ d)%string])%list else lines1
        | None => lines1
        end in
      entity_lines (S i) rest lines2
  end.

Definition query_docs (query session_id : str) (top_k : Z) : M (GW G) str :=
  indexer <- _indexer session_id ;;
  results <- Gibram.query indexer query top_k ;;
  if negb (nonempty (entities results)) then
    ret ("No results found for: " ++ repr query
         ++ " in session " ++ repr session_id)
  else
    let lines := ["Query: " ++ query; "Session: " ++ session_id; EmptyString] in
    ret (join nl (entity_lines 1 (entities results) lines)).

(** [for p in md_files: try: docs.append(p.read_text(...))
    except Exception: skipped += 1] *)
Fixpoint read_all (md_files : list str) (docs : list str) (skipped : nat)
  : list str * nat :=
  match md_files with
  | [] => (docs, skipped)
  | p :: rest =>
      match read_text fs p with
      | inr text => read_all rest (docs ++ [text])%list skipped
      | inl _ => read_all rest docs (skipped + 1)
      end
  end.

Definition index_directory (path session_id : str) : M (GW G) str :=
  let docs_dir := resolve fs path in
  if negb (exists_ fs docs_dir) then
    ret ("Error: Directory not found: " ++ path)
  else
    let md_files := sorted_rglob_md fs docs_dir in
    if negb (nonempty md_files) then
      ret ("No markdown files found in " ++ path)
    else
      indexer <- _indexer session_id ;;
      let '(docs, skipped) := read_all md_files [] 0 in
      stats <- index_documents indexer docs ;;
      let lines :=
        ["Indexed " ++ str_of_nat (List.length docs) ++ " files from " ++ path;
         "Session:       " ++ session_id;
         "Entities:      " ++ str_of_Z (entities_extracted stats);
         "Relationships: " ++ str_of_Z (relationships_extracted stats)] in
      let lines :=
        if Nat.eqb skipped 0 then lines
        else (lines ++ [("Skipped:       " ++ str_of_nat skipped
                         ++ " unreadable files")%string])%list in
      ret (join nl lines).

End Tools.

End McpServer.

(* ================================================================== *)
(** ** Reference descriptions used by the statements below *)
(* ================================================================== *)

Module Reference.

Import IndexDocs.

Section Fallback.

Context {P : Type} `{EmbeddingsClient P}.

(** One individual attempt on [text] against the provider in state [p]:
    the vector of the first item of the answer, or the failure (the
    request raised, or the answer held no item). *)
Definition attempt (self : Embedder) (text : str) (p : P)
  : (Exception + list float) * P :=
  let (r, p') := embeddings_create (embedder_model self) [text] p in
  (match r with
   | inl e => inl e
   | inr resp =>
       match data resp with
       | item :: _ => inr (embedding item)
       | [] => inl (IndexError "list index out of range")
       end
   end, p').

(** Independent attempts on [texts], one after the other, in order. *)
Fixpoint attempts (self : Embedder) (texts : list str) (p : P)
  : list (Exception + list float) * P :=
  match texts with
  | [] => ([], p)
  | t :: rest =>
      let (o, p1) := attempt self t p in
      let (os, p2) := attempts self rest p1 in
      (o :: os, p2)
  end.

(** The vector kept for an attempt: its own, or the zero vector. *)
Definition or_zero (o : Exception + list float) : list float :=
  match o with inr v => v | inl _ => zero_vector end.

(** What the fallback prints for an attempt. *)
Definition attempt_log (o : Exception + list float) : list str :=
  match o with
  | inr _ => []
  | inl e => ["  [embed] Single embed failed, using zero vector: "
              ++ str_of_exception e]
  end.

End Fallback.


(** The documents of [files] that can be read, in order. *)
Fixpoint readable (fs : FileSystem) (files : list str) : list str :=
  match files with
  | [] => []
  | p :: rest =>
      match read_text fs p with
      | inr text => text :: readable fs rest
      | inl _ => readable fs rest
      end
  end.



(** The batches the engine was given by [index_documents], and the
    statistics it answered with, as recorded in a trace. *)
Fixpoint batches_of (calls : list EngineCall) : list (list str) :=
  match calls with
  | [] => []
  | CallIndexDocuments _ docs _ :: rest => docs :: batches_of rest
  | _ :: rest => batches_of rest
  end.

Fixpoint stats_of (calls : list EngineCall) : list IndexStats :=
  match calls with
  | [] => []
  | CallIndexDocuments _ _ (inr st) :: rest => st :: stats_of rest
  | _ :: rest => stats_of rest
  end.

(** The batch after the [try] / [except] around [read_text], and whether
    the loop then calls the engine, in round [i] of [n]. *)
Definition after_read (fs : FileSystem) (path : str) (b : list str) : list str :=
match read_text fs path with
| inr text => (b ++ [text])%list
| inl _ => b
end.

Definition flushes (batch_size : Z) (n i : nat) (batch1 : list str) : bool :=
((batch_size <=? Z.of_nat (List.length batch1))%Z || Nat.eqb i n) && nonempty batch1.

(** A batch the engine may be given under a batch size: at least one
    document, and no more than the batch size (one, for a batch size
    below one). *)
Definition batch_ok (batch_size : Z) (docs : list str) : Prop :=
1 <= List.length docs /\ (Z.of_nat (List.length docs) <= Z.max 1 batch_size)%Z.

(** Whether the command line asks for a remote backend, and whether the
    environment holds a credential ([not api_key] is false). *)
Definition remote_requested (args : IndexDocs.Args) : bool :=
IndexDocs.arg_openai args || IndexDocs.arg_openai_embed args.

Definition credential_present (environ : Environ) : bool :=
match environ_get environ "OPENAI_API_KEY" with
| Some k => truthy k
| None => false
end.

(** The indexer [main] constructs, and the three lines it prints before. *)
Definition main_indexer (args : IndexDocs.Args) (api_key : option str) : GibRAMIndexer :=
let '(extractor, embedder, _) := IndexDocs.select_backend args api_key in
{| session_id := IndexDocs.arg_session_id args;
   host := IndexDocs.arg_host args;
   port := IndexDocs.arg_port args;
   extractor := extractor;
   embedder := embedder |}.

Definition banner (args : IndexDocs.Args) (api_key : option str)
         (md_files : list str) (docs_dir : str) : list str :=
let '(_, _, backend) := IndexDocs.select_backend args api_key in
["Found " ++ str_of_nat (List.length md_files) ++ " markdown files in " ++ docs_dir;
 "Session:  " ++ IndexDocs.arg_session_id args ++ " " ++ IndexDocs.RIGHTWARDS_ARROW
   ++ " " ++ IndexDocs.arg_host args ++ ":" ++ str_of_Z (IndexDocs.arg_port args);
 "Backend:  " ++ backend ++ nl].

(** An engine that answers every construction and every indexing call. *)
Definition engine_answers (G : Type) `{Engine G} : Prop :=
(forall idx g, exists g', engine_new idx g = (inr tt, g'))
/\ (forall idx docs g, exists st g', engine_index_documents idx docs g = (inr st, g')).

(** The indexer [_indexer] constructs: written out for each backend. *)
Definition facade_indexer (g : McpServer.Globals) (session_id : str) : GibRAMIndexer :=
if McpServer.USE_OPENAI g then
  {| session_id := session_id;
     host := McpServer.GIBRAM_HOST g;
     port := McpServer.GIBRAM_PORT g;
     extractor := {| extractor_class := OpenAIExtractor;
                     extractor_model := "gpt-4o";
                     extractor_api_key := Some (McpServer.OPENAI_API_KEY g);
                     extractor_base_url := None |};
     embedder := {| embedder_class := OpenAIEmbedder;
                    embedder_model := "text-embedding-3-small";
                    embedder_api_key := Some (McpServer.OPENAI_API_KEY g);
                    embedder_base_url := None |} |}
else
  {| session_id := session_id;
     host := McpServer.GIBRAM_HOST g;
     port := McpServer.GIBRAM_PORT g;
     extractor := {| extractor_class := OpenAIExtractor;
                     extractor_model := McpServer.EXTRACTOR_MODEL g;
                     extractor_api_key := Some "ollama";
                     extractor_base_url := Some (McpServer.OLLAMA_BASE_URL g) |};
     embedder := {| embedder_class := OpenAIEmbedder;
                    embedder_model := McpServer.EMBEDDER_MODEL g;
                    embedder_api_key := Some "ollama";
                    embedder_base_url := Some (McpServer.OLLAMA_BASE_URL g) |} |}.

(** A text [repr] shows as it is, between quotes: no character of it is
    escaped under the quote [repr] picks for it. *)
Fixpoint unescaped (quote : ascii) (s : str) : bool :=
match s with
| EmptyString => true
| String c s' =>
    String.eqb (escape_char quote c) (String c EmptyString) && unescaped quote s'
end.

Definition verbatim (s : str) : bool := unescaped (repr_quote s) s.

(** The number of files of [files] that cannot be read. *)
Fixpoint unreadable (fs : FileSystem) (files : list str) : nat :=
match files with
| [] => 0
| p :: rest =>
    match read_text fs p with
    | inr _ => unreadable fs rest
    | inl _ => S (unreadable fs rest)
    end
end.

Definition sum_entities (l : list IndexStats) : Z :=
  fold_right (fun st acc => (entities_extracted st + acc)%Z) 0%Z l.

Definition sum_relationships (l : list IndexStats) : Z :=
  fold_right (fun st acc => (relationships_extracted st + acc)%Z) 0%Z l.

(** The attempts that failed. *)
Fixpoint count_failed (os : list (Exception + list float)) : nat :=
match os with
| [] => 0
| inl _ :: rest => S (count_failed rest)
| inr _ :: rest => count_failed rest
end.

(** What the loop of [main] prints for a file it cannot read. *)
Definition skip_line (fs : FileSystem) (path : str) : list str :=
match read_text fs path with
| inl e => ["  Skipped " ++ name fs path ++ ": " ++ str_of_exception e]
| inr _ => []
end.

(** The indexers a trace shows being constructed. *)
Fixpoint news_of (calls : list EngineCall) : list GibRAMIndexer :=
match calls with
| [] => []
| CallNew indexer _ :: rest => indexer :: news_of rest
| _ :: rest => news_of rest
end.

(** The calls of a trace that raised. *)
Fixpoint failures_of (calls : list EngineCall) : list Exception :=
match calls with
| [] => []
| CallNew _ (inl e) :: rest => e :: failures_of rest
| CallIndexDocuments _ _ (inl e) :: rest => e :: failures_of rest
| CallQuery _ _ _ (inl e) :: rest => e :: failures_of rest
| _ :: rest => failures_of rest
end.

(** A component as the CLI may construct it: an OpenAI one holds the
    non-empty credential of the environment and no endpoint of its own, an
    Ollama one holds the key [ollama] and the Ollama endpoint of the command
    line. *)
Definition extractor_ok (environ : Environ) (args : IndexDocs.Args) (x : Extractor) : Prop :=
match extractor_class x with
| OpenAIExtractor =>
    exists k, environ_get environ "OPENAI_API_KEY" = Some k /\ truthy k = true
              /\ extractor_api_key x = Some k /\ extractor_base_url x = None
| OllamaExtractor =>
    extractor_api_key x = Some "ollama"
    /\ extractor_base_url x = Some (IndexDocs.arg_ollama_url args)
end.

Definition embedder_ok (environ : Environ) (args : IndexDocs.Args) (x : Embedder) : Prop :=
match embedder_class x with
| OpenAIEmbedder =>
    exists k, environ_get environ "OPENAI_API_KEY" = Some k /\ truthy k = true
              /\ embedder_api_key x = Some k /\ embedder_base_url x = None
| OllamaEmbedder =>
    embedder_api_key x = Some "ollama"
    /\ embedder_base_url x = Some (IndexDocs.arg_ollama_url args)
end.

(** An entity with a description that is shown. *)
Definition described (e : Entity) : bool :=
match description e with
| Some d => truthy d
| None => false
end.

(** The lines [query_docs] gives to the entity numbered [i]. *)
Definition entity_block (format_3f : float -> str) (i : nat) (e : Entity) : list str :=
(str_of_nat i ++ ". " ++ title e ++ "  (score: " ++ format_3f (score e) ++ ")")
  :: match description e with
     | Some d => if truthy d then ["   " ++ d] else []
     | None => []
     end.

Fixpoint entity_blocks (format_3f : float -> str) (i : nat) (es : list Entity) : list str :=
match es with
| [] => []
| e :: rest => app (entity_block format_3f i e) (entity_blocks format_3f (S i) rest)
end.

Fixpoint count_described (es : list Entity) : nat :=
match es with
| [] => 0
| e :: rest => (if described e then 1 else 0) + count_described rest
end.

(** The summary [index_directory] returns for [k] documents read, [s]
    files skipped and the statistics [stats]. *)
Definition summary (path session_id : str) (k s : nat) (stats : IndexStats) : str :=
join nl
  (app ["Indexed " ++ str_of_nat k ++ " files from " ++ path;
        "Session:       " ++ session_id;
        "Entities:      " ++ str_of_Z (entities_extracted stats);
        "Relationships: " ++ str_of_Z (relationships_extracted stats)]
       (if Nat.eqb s 0 then []
        else ["Skipped:       " ++ str_of_nat s ++ " unreadable files"])).

End Reference.
Import Reference.

(* ================================================================== *)
(** ** Concrete collaborators for worked examples *)
(* ================================================================== *)

Module Demo.

Import IndexDocs.

Definition vec_of (t : str) : list float :=
  [if String.eqb t "a" then 1%float else 2%float].

(** A provider that counts the requests it has seen.  It refuses a request
    of more than two texts and a request that holds the text [bad]; it
    answers any other request with one vector per text. *)
#[global] Instance counting_client : EmbeddingsClient nat := {|
  embeddings_create := fun _ input n =>
    (if (2 <? List.length input)%nat || existsb (String.eqb "bad") input
     then inl (APIError "context length exceeded")
     else inr {| data := map (fun t => {| embedding := vec_of t |}) input |},
     S n)
|}.

Fixpoint repeat_char (c : ascii) (n : nat) : str :=
  match n with O => EmptyString | S n' => String c (repeat_char c n') end.

(** A text of 6001 characters. *)
Definition long_text : str := repeat_char "x" 6001.

Definition nomic : Embedder := OllamaEmbedder_init DEFAULT_EMBEDDER_MODEL OLLAMA_BASE_URL.

Definition w0 : EW nat := mkWorld 0 [] [] [].

(** An engine that counts the calls it has seen and answers the [n]-th
    indexing call with the [n]-th pair of [answers] (zeros beyond). *)
Definition answers : list IndexStats :=
  [ {| entities_extracted := 3; relationships_extracted := 1 |};
    {| entities_extracted := 2; relationships_extracted := 0 |};
    {| entities_extracted := 1; relationships_extracted := 1 |} ].

#[global] Instance scripted_engine : Engine nat := {|
  engine_new := fun _ n => (inr tt, n);
  engine_index_documents := fun _ _ n =>
    (inr (nth n answers {| entities_extracted := 0; relationships_extracted := 0 |}),
     S n);
  engine_query := fun _ _ _ n => (inr {| entities := [] |}, S n)
|}.

Definition g0 : GW nat := mkWorld 0 [] [] [].

(** A directory [/docs] of five readable files. *)
Definition five_files : FileSystem := {|
  resolve := fun p => p;
  exists_ := fun p => String.eqb p "/docs";
  sorted_rglob_md := fun p =>
    if String.eqb p "/docs"
    then ["/docs/a.md"; "/docs/b.md"; "/docs/c.md"; "/docs/d.md"; "/docs/e.md"]
    else [];
  read_text := fun p => inr ("text of " ++ p);
  name := fun p => p
|}.

(** The same directory when [c.md] and [e.md] cannot be read. *)
Definition three_readable : FileSystem := {|
  resolve := fun p => p;
  exists_ := fun p => String.eqb p "/docs";
  sorted_rglob_md := sorted_rglob_md five_files;
  read_text := fun p =>
    if String.eqb p "/docs/c.md" || String.eqb p "/docs/e.md"
    then inl (UnicodeDecodeError "invalid start byte")
    else inr ("text of " ++ p);
  name := fun p => p
|}.

Definition args0 : Args := {|
  arg_dir := "/docs";
  arg_session_id := "my-corpus";
  arg_host := "localhost";
  arg_port := 6161;
  arg_batch_size := 2;
  arg_ollama_url := OLLAMA_BASE_URL;
  arg_extractor_model := DEFAULT_EXTRACTOR_MODEL;
  arg_embedder_model := DEFAULT_EMBEDDER_MODEL;
  arg_openai := false;
  arg_openai_embed := false
|}.

(** A directory [/empty] without markdown files, next to no [/nowhere]. *)
Definition empty_dir : FileSystem := {|
  resolve := fun p => p;
  exists_ := fun p => String.eqb p "/empty";
  sorted_rglob_md := fun _ => [];
  read_text := fun _ => inl (OSError "No such file or directory");
  name := fun p => p
|}.

Definition args_from (d : str) (batch_size : Z) (openai openai_embed : bool) : Args := {|
  arg_dir := d;
  arg_session_id := "my-corpus";
  arg_host := "localhost";
  arg_port := 6161;
  arg_batch_size := batch_size;
  arg_ollama_url := OLLAMA_BASE_URL;
  arg_extractor_model := DEFAULT_EXTRACTOR_MODEL;
  arg_embedder_model := DEFAULT_EMBEDDER_MODEL;
  arg_openai := openai;
  arg_openai_embed := openai_embed
|}.

(** [int] on a [str] of decimal digits with an optional sign. *)
Definition py_int (s : str) : Exception + Z :=
match NilZero.int_of_string s with
| Some i => inr (Z.of_int i)
| None => inl (ValueError ("invalid literal for int() with base 10: " ++ repr s))
end.

(** A directory of [k] readable files. *)
Definition many_files (k : nat) : FileSystem := {|
  resolve := fun p => p;
  exists_ := fun _ => true;
  sorted_rglob_md := fun _ => repeat "/docs/note.md" k;
  read_text := fun _ => inr "a note";
  name := fun p => p
|}.

(** The globals of the server under an empty environment. *)
Definition globals0 : McpServer.Globals := {|
  McpServer.GIBRAM_HOST := "localhost";
  McpServer.GIBRAM_PORT := 6161;
  McpServer.OLLAMA_BASE_URL := "http://localhost:11434/v1";
  McpServer.EXTRACTOR_MODEL := "llama3.2";
  McpServer.EMBEDDER_MODEL := "nomic-embed-text";
  McpServer.USE_OPENAI := false;
  McpServer.OPENAI_API_KEY := EmptyString
|}.

(** The globals when [GIBRAM_BACKEND] is [OpenAI] and [OPENAI_API_KEY] is
    not set. *)
Definition globals_openai_no_key : McpServer.Globals := {|
  McpServer.GIBRAM_HOST := "localhost";
  McpServer.GIBRAM_PORT := 6161;
  McpServer.OLLAMA_BASE_URL := "http://localhost:11434/v1";
  McpServer.EXTRACTOR_MODEL := "llama3.2";
  McpServer.EMBEDDER_MODEL := "nomic-embed-text";
  McpServer.USE_OPENAI := true;
  McpServer.OPENAI_API_KEY := EmptyString
|}.

(** [f"{x:.3f}"], for examples that print no score. *)
Definition format_3f (_ : float) : str := "0.000".

(** A question of two lines. *)
Definition two_line_query : str := "first line" ++ nl ++ "second line".

Definition indexer0 : GibRAMIndexer :=
  let '(extractor, embedder, _) := select_backend args0 None in
  {| session_id := "my-corpus"; host := "localhost"; port := 6161;
     extractor := extractor; embedder := embedder |}.

(** A directory [/docs] none of whose two files can be read. *)
Definition none_readable : FileSystem := {|
  resolve := fun p => p;
  exists_ := fun p => String.eqb p "/docs";
  sorted_rglob_md := fun _ => ["/docs/a.md"; "/docs/b.md"];
  read_text := fun _ => inl (OSError "Permission denied");
  name := fun p => p
|}.

(** An engine that answers the construction and the first indexing call,
    and refuses every later call. *)
#[global] Instance failing_engine : Engine bool := {|
  engine_new := fun _ (seen : bool) => (inr tt, seen);
  engine_index_documents := fun _ _ (seen : bool) =>
    (if seen then inl (APIError "connection refused")
     else inr {| entities_extracted := 4; relationships_extracted := 2 |},
     true);
  engine_query := fun _ _ _ (seen : bool) => (inl (APIError "connection refused"), seen)
|}.

Definition b0 : GW bool := mkWorld false [] [] [].

(** The same engine once it has answered its first indexing call. *)
Definition b1 : GW bool := mkWorld true [] [] [].

(** An engine whose retrieval answers with two entities. *)
Definition two_entities : list Entity :=
  [ {| title := "GibRAM"; score := 0.5%float; description := Some "A graph store" |};
    {| title := "Ollama"; score := 0.25%float; description := None |} ].

#[global] Instance answering_engine : Engine unit := {|
  engine_new := fun _ u => (inr tt, u);
  engine_index_documents := fun _ _ u =>
    (inr {| entities_extracted := 7; relationships_extracted := 3 |}, u);
  engine_query := fun _ _ _ u => (inr {| entities := two_entities |}, u)
|}.

Definition u0 : GW unit := mkWorld tt [] [] [].

(** The globals of the server when only [OPENAI_API_KEY] is set. *)
Definition globals_local_with_key : McpServer.Globals := {|
  McpServer.GIBRAM_HOST := "localhost";
  McpServer.GIBRAM_PORT := 6161;
  McpServer.OLLAMA_BASE_URL := "http://localhost:11434/v1";
  McpServer.EXTRACTOR_MODEL := "llama3.2";
  McpServer.EMBEDDER_MODEL := "nomic-embed-text";
  McpServer.USE_OPENAI := false;
  McpServer.OPENAI_API_KEY := "sk-test"
|}.

(** A provider serving a model of 1024 dimensions, such as
    mxbai-embed-large: it refuses a request that holds the text [bad] and
    answers any other request with one vector of 1024 components per
    text. *)
#[global] Instance wide_client : EmbeddingsClient unit := {|
  embeddings_create := fun _ input u =>
    (if existsb (String.eqb "bad") input
     then inl (APIError "context length exceeded")
     else inr {| data := map (fun _ => {| embedding := repeat 0.5%float 1024 |}) input |},
     u)
|}.

(** The command line [DIR --embedder-model mxbai-embed-large], and the
    embedder [main] builds for it. *)
Definition args_mxbai : Args := {|
  arg_dir := "/docs";
  arg_session_id := "my-corpus";
  arg_host := "localhost";
  arg_port := 6161;
  arg_batch_size := 50;
  arg_ollama_url := OLLAMA_BASE_URL;
  arg_extractor_model := DEFAULT_EXTRACTOR_MODEL;
  arg_embedder_model := "mxbai-embed-large";
  arg_openai := false;
  arg_openai_embed := false
|}.

Definition mxbai : Embedder := snd (fst (select_backend args_mxbai None)).

Definition wide0 : EW unit := mkWorld tt [] [] [].

End Demo.

(* ================================================================== *)
(** ** Strings *)
(* ================================================================== *)

Lemma slice_to_length (n : nat) (s : str) :
  String.length (slice_to n s) = Nat.min n (String.length s).
Proof.
  revert s; induction n as [|n IH]; intros [|c s]; simpl; auto.
Qed.

Lemma slice_to_all (n : nat) (s : str) :
  String.length s <= n -> slice_to n s = s.
Proof.
  revert s; induction n as [|n IH]; intros [|c s]; simpl; intros Hle;
    try reflexivity; try lia.
  f_equal; apply IH; lia.
Qed.

Lemma slice_to_prefix (n : nat) (s : str) :
  exists rest, s = slice_to n s ++ rest.
Proof.
  revert s; induction n as [|n IH]; intros s.
  - exists s; reflexivity.
  - destruct s as [|c s]; simpl.
    + exists EmptyString; reflexivity.
    + destruct (IH s) as [rest Hrest]. exists rest. simpl. congruence.
Qed.

Lemma append_assoc (a b c : str) : (a ++ b) ++ c = a ++ b ++ c.
Proof. induction a as [|x a IH]; simpl; [reflexivity | rewrite IH; reflexivity]. Qed.

Lemma append_empty_r (a : str) : a ++ EmptyString = a.
Proof. induction a as [|x a IH]; simpl; [reflexivity | rewrite IH; reflexivity]. Qed.

Lemma prefix_app (s t : str) : String.prefix s (s ++ t) = true.
Proof.
  induction s as [|a s IH]; simpl; [destruct t; reflexivity|].
  destruct (ascii_dec a a) as [_|Hne]; [exact IH | contradiction].
Qed.

Lemma containsb_unfold (hay needle : str) :
  containsb hay needle
  = String.prefix needle hay
    || match hay with
       | EmptyString => false
       | String _ hay' => containsb hay' needle
       end.
Proof. destruct hay; reflexivity. Qed.

(** The test [containsb] misses no occurrence. *)
Lemma containsb_complete (hay needle : str) :
  contains hay needle -> containsb hay needle = true.
Proof.
  intros (pre & post & ->). induction pre as [|a pre IH].
  - simpl. rewrite containsb_unfold, prefix_app. reflexivity.
  - simpl. rewrite IH. apply orb_true_r.
Qed.

Lemma contains_trans (a b c : str) : contains a b -> contains b c -> contains a c.
Proof.
  intros (p1 & q1 & ->) (p2 & q2 & ->).
  exists (p1 ++ p2), (q2 ++ q1). rewrite !append_assoc. reflexivity.
Qed.

Lemma unescaped_escape (quote : ascii) (s : str) :
  unescaped quote s = true -> escape quote s = s.
Proof.
  induction s as [|c s IH]; simpl; [reflexivity|].
  intros Hs. apply andb_true_iff in Hs as [Hc Hs].
  apply String.eqb_eq in Hc. rewrite Hc, IH by exact Hs. reflexivity.
Qed.

(** [repr] of a text without escapes is the text between two quotes. *)
Lemma repr_verbatim (s : str) :
  verbatim s = true -> contains (repr s) s.
Proof.
  intros Hs. unfold repr. rewrite (unescaped_escape _ _ Hs).
  exists (String (repr_quote s) EmptyString), (String (repr_quote s) EmptyString).
  reflexivity.
Qed.

(* ================================================================== *)
(** ** The resilient embedder *)
(* ================================================================== *)

Section EmbedderFacts.

Import IndexDocs.
Context {P : Type} `{EmbeddingsClient P}.
Variable self : Embedder.

Lemma truncate_short (t : str) :
  String.length t <= MAX_CHARS -> truncate t = t.
Proof.
  intros Hle; unfold truncate; destruct (truthy t); auto using slice_to_all.
Qed.

Lemma truncate_long (t : str) :
  MAX_CHARS < String.length t ->
  truncate t = slice_to MAX_CHARS t /\ String.length (truncate t) = MAX_CHARS.
Proof.
  intros Hlt; unfold truncate; destruct t as [|c t]; simpl truthy; cbv iota.
  - simpl in Hlt; lia.
  - split; [reflexivity | rewrite slice_to_length; lia].
Qed.

Lemma embed_single_run (text : str) (w : EW P) :
  embed_single self text w =
  (inr (or_zero (fst (attempt self text (ext w)))),
   mkWorld (snd (attempt self text (ext w)))
           (trace w ++ [[text]])
           (stdout w ++ attempt_log (fst (attempt self text (ext w))))
           (stderr w)).
Proof.
  unfold embed_single, try_except, bind, create, attempt.
  destruct (embeddings_create (embedder_model self) [text] (ext w)) as [[e|resp] p'];
    simpl.
  - reflexivity.
  - destruct (data resp) as [|item items]; simpl.
    + reflexivity.
    + rewrite app_nil_r; reflexivity.
Qed.

Lemma embed_each_run (texts : list str) :
  forall (result : list (list float)) (w : EW P),
    embed_each self texts result w =
    (inr (result ++ map or_zero (fst (attempts self texts (ext w))))%list,
     mkWorld (snd (attempts self texts (ext w)))
             (trace w ++ map (fun t => [t]) texts)
             (stdout w ++ flat_map attempt_log (fst (attempts self texts (ext w))))
             (stderr w)).
Proof.
  induction texts as [|t rest IH]; intros result w; simpl.
  - destruct w; unfold ret; simpl; rewrite !app_nil_r; reflexivity.
  - unfold bind at 1. rewrite embed_single_run. rewrite IH. simpl.
    destruct (attempt self t (ext w)) as [o p1]; simpl.
    destruct (attempts self rest p1) as [os p2]; simpl.
    rewrite <- !app_assoc. reflexivity.
Qed.

Lemma attempts_length (texts : list str) :
  forall p, List.length (fst (attempts self texts p)) = List.length texts.
Proof.
  induction texts as [|t rest IH]; intros p; simpl; auto.
  destruct (attempt self t p) as [o p1].
  specialize (IH p1). destruct (attempts self rest p1) as [os p2]; simpl in *.
  congruence.
Qed.

Lemma attempts_nth (texts : list str) :
  forall p i o,
    nth_error (fst (attempts self texts p)) i = Some o ->
    exists t p_i, nth_error texts i = Some t /\ o = fst (attempt self t p_i).
Proof.
  induction texts as [|t rest IH]; intros p i o; simpl.
  - destruct i; discriminate.
  - destruct (attempt self t p) as [o1 p1] eqn:E1.
    specialize (IH p1). destruct (attempts self rest p1) as [os p2]; simpl in *.
    destruct i as [|i]; simpl.
    + intros [= <-]. exists t, p. rewrite E1. auto.
    + apply IH.
Qed.

(** What [embed] does when the batch request raises and the batch does
    not hold exactly one text. *)
Lemma embed_fallback_run (texts : list str) (w : EW P) (e : Exception) (p' : P) :
  List.length texts <> 1 ->
  embeddings_create (embedder_model self) (map truncate texts) (ext w) = (inl e, p') ->
  embed self texts w =
  (inr (map or_zero (fst (attempts self (map truncate texts) p'))),
   mkWorld (snd (attempts self (map truncate texts) p'))
           (trace w ++ map truncate texts :: map (fun t => [truncate t]) texts)
           ((stdout w
             ++ ["  [embed] Batch of " ++ str_of_nat (List.length (map truncate texts))
                 ++ " failed (" ++ str_of_exception e ++ "), retrying individually"])
            ++ flat_map attempt_log (fst (attempts self (map truncate texts) p')))
           (stderr w)).
Proof.
  intros Hlen Hbatch.
  unfold embed, try_except. unfold bind at 1. unfold create. rewrite Hbatch. simpl.
  rewrite length_map.
  destruct (Nat.eqb_spec (List.length texts) 1) as [Heq|_]; [contradiction|].
  unfold bind, print. simpl. rewrite embed_each_run. simpl.
  rewrite map_map, <- app_assoc. reflexivity.
Qed.

(** What [embed] does when the batch request is answered. *)
Lemma embed_batch_run (texts : list str) (w : EW P)
      (resp : CreateEmbeddingResponse) (p' : P) :
  embeddings_create (embedder_model self) (map truncate texts) (ext w) = (inr resp, p') ->
  embed self texts w =
  (inr (map embedding (data resp)),
   mkWorld p' (trace w ++ [map truncate texts]) (stdout w) (stderr w)).
Proof.
  intros Hbatch.
  unfold embed, try_except, bind, create. rewrite Hbatch. reflexivity.
Qed.

(** X22: when the batch request fails on a list of more than one text,
    [embed] retries every truncated text on its own, in the order of the
    input (the requests delivered are the batch, then one singleton per
    text), keeps the vector of each attempt that succeeds, puts
    [[0.0] * 768] where an attempt fails, and returns a list instead of
    raising.  The vector put in place has 768 components whatever the
    model of [self] is. *)
Theorem embed_fallback_zero_vectors
        (texts : list str) (w : EW P) (e : Exception) (p' : P) :
  1 < List.length texts ->
  embeddings_create (embedder_model self) (map truncate texts) (ext w) = (inl e, p') ->
  let outcomes := fst (attempts self (map truncate texts) p') in
  exists w' : EW P,
    embed self texts w = (inr (map or_zero outcomes), w')
    /\ trace w' = (trace w ++ map truncate texts
                     :: map (fun t => [truncate t]) texts)%list
    /\ ext w' = snd (attempts self (map truncate texts) p')
    /\ List.length (map or_zero outcomes) = List.length texts
    /\ (forall i err, nth_error outcomes i = Some (inl err) ->
                      nth_error (map or_zero outcomes) i = Some (repeat 0%float 768))
    /\ (forall i v, nth_error outcomes i = Some (inr v) ->
                    nth_error (map or_zero outcomes) i = Some v)
    /\ List.length (repeat 0%float 768) = 768.
Proof.
  intros Hlen Hbatch outcomes.
  eexists. split.
  { apply embed_fallback_run; [lia | exact Hbatch]. }
  cbn [trace ext].
  split; [reflexivity|]. split; [reflexivity|]. split; [|split; [|split]].
  - rewrite length_map. unfold outcomes. rewrite attempts_length, length_map. reflexivity.
  - intros i err Hi. rewrite nth_error_map, Hi. reflexivity.
  - intros i v Hi. rewrite nth_error_map, Hi. reflexivity.
  - apply repeat_length.
Qed.

(** C2: whenever [embed] returns a list, it holds one vector per input
    text, in the order of the input.  On the batch path (the provider
    answers the batch with one item per text, as its contract says) the
    [i]-th vector is the embedding of the [i]-th item of the answer; on
    the fallback path (the batch request fails, the list does not hold
    exactly one text) the [i]-th vector is the outcome of the individual
    attempt on the [i]-th truncated text. *)
Theorem embed_same_length_same_order
        (texts : list str) (w : EW P)
        (r : Exception + CreateEmbeddingResponse) (p' : P) :
  embeddings_create (embedder_model self) (map truncate texts) (ext w) = (r, p') ->
  match r with
  | inr resp => List.length (data resp) = List.length texts
  | inl _ => List.length texts <> 1
  end ->
  exists (result : list (list float)) (w' : EW P),
    embed self texts w = (inr result, w')
    /\ List.length result = List.length texts
    /\ match r with
       | inr resp =>
           forall i item, nth_error (data resp) i = Some item ->
                          nth_error result i = Some (embedding item)
       | inl _ =>
           forall i v, nth_error result i = Some v ->
                       exists t p_i,
                         nth_error texts i = Some t
                         /\ v = or_zero (fst (attempt self (truncate t) p_i))
       end.
Proof.
  intros Hbatch Hr. destruct r as [e|resp].
  - do 2 eexists. split; [apply embed_fallback_run; eassumption|].
    split.
    + rewrite length_map, attempts_length, length_map. reflexivity.
    + intros i v Hi. rewrite nth_error_map in Hi.
      destruct (nth_error (fst (attempts self (map truncate texts) p')) i)
        as [o|] eqn:Ho; [|discriminate].
      injection Hi as <-.
      destruct (attempts_nth _ _ _ _ Ho) as (t' & p_i & Ht' & ->).
      rewrite nth_error_map in Ht'.
      destruct (nth_error texts i) as [t|]; [|discriminate].
      injection Ht' as <-. exists t, p_i. auto.
  - do 2 eexists. split; [apply embed_batch_run; eassumption|].
    split.
    + rewrite length_map. exact Hr.
    + intros i item Hi. rewrite nth_error_map, Hi. reflexivity.
Qed.

(** C6: every request [embed] delivers to the provider is made of the
    truncated texts: first the batch of all of them, in order, then, on
    the fallback path only, each of them alone.  A truncated text is the
    text itself when it has at most [MAX_CHARS] characters (the empty
    text included), and its first [MAX_CHARS] characters, exactly
    [MAX_CHARS] of them, when it is longer. *)
Theorem embed_delivers_truncated (texts : list str) (w : EW P) :
  (exists individually : bool,
      trace (snd (embed self texts w)) =
      (trace w ++ map truncate texts
         :: (if individually then map (fun t => [truncate t]) texts else []))%list)
  /\ truncate EmptyString = EmptyString
  /\ (forall t, String.length t <= MAX_CHARS -> truncate t = t)
  /\ (forall t, MAX_CHARS < String.length t ->
                String.length (truncate t) = MAX_CHARS
                /\ exists rest, t = truncate t ++ rest).
Proof.
  split; [|split; [reflexivity|split]].
  - destruct (embeddings_create (embedder_model self) (map truncate texts) (ext w))
      as [[e|resp] p'] eqn:Hbatch.
    + destruct (Nat.eq_dec (List.length texts) 1) as [Hone|Hmany].
      * exists false.
        unfold embed, try_except, bind, create. rewrite Hbatch. simpl.
        rewrite length_map, Hone. reflexivity.
      * exists true. rewrite (embed_fallback_run _ _ _ _ Hmany Hbatch). reflexivity.
    + exists false. rewrite (embed_batch_run _ _ _ _ Hbatch). reflexivity.
  - apply truncate_short.
  - intros t Hlong. destruct (truncate_long t Hlong) as [Heq Hlen].
    split; [exact Hlen|]. rewrite Heq. apply slice_to_prefix.
Qed.

(** C7: when the list holds exactly one text and the batch request
    raises, [embed] raises that same exception: the provider has seen
    the one request only, nothing was printed and no vector was made. *)
Theorem embed_single_text_propagates
        (texts : list str) (w : EW P) (e : Exception) (p' : P) :
  List.length texts = 1 ->
  embeddings_create (embedder_model self) (map truncate texts) (ext w) = (inl e, p') ->
  embed self texts w =
  (inl (Exc e),
   mkWorld p' (trace w ++ [map truncate texts]) (stdout w) (stderr w)).
Proof.
  intros Hone Hbatch.
  unfold embed, try_except, bind, create. rewrite Hbatch. simpl.
  rewrite length_map, Hone. reflexivity.
Qed.

End EmbedderFacts.

(** The fallback on three texts, the second of which the provider refuses
    also on its own. *)
Lemma embed_fallback_zero_vectors_witness :
  exists w' : IndexDocs.EW nat,
    IndexDocs.embed Demo.nomic ["a"; "bad"; "c"] Demo.w0
    = (inr [[1%float]; repeat 0%float 768; [2%float]], w')
    /\ trace w' = [["a"; "bad"; "c"]; ["a"]; ["bad"]; ["c"]].
Proof.
  destruct (embed_fallback_zero_vectors (H := Demo.counting_client) Demo.nomic ["a"; "bad"; "c"] Demo.w0
              (APIError "context length exceeded") 1
              ltac:(simpl; lia) eq_refl)
    as (w' & Hrun & Htrace & _).
  exists w'. split; [exact Hrun | exact Htrace].
Defined.

(** C1: the vector put in place of a failing item does not follow the
    model.  With the embedder [main] builds for
    [--embedder-model mxbai-embed-large] and a provider of 1024-component
    vectors that refuses the batch and the text [bad], [embed] returns,
    without raising, a vector of 1024 components for [good] and one of
    768 for [bad]: the constant of the source is the dimension of
    nomic-embed-text, not that of the model in use, and one result mixes
    the two lengths. *)
Theorem embed_fallback_mixes_dimensions :
  Demo.mxbai = IndexDocs.OllamaEmbedder_init "mxbai-embed-large" IndexDocs.OLLAMA_BASE_URL
  /\ fst (IndexDocs.embed Demo.mxbai ["good"; "bad"] Demo.wide0)
     = inr [repeat 0.5%float 1024; repeat 0%float 768]
  /\ trace (snd (IndexDocs.embed Demo.mxbai ["good"; "bad"] Demo.wide0))
     = [["good"; "bad"]; ["good"]; ["bad"]]
  /\ map (@List.length float) [repeat 0.5%float 1024; repeat 0%float 768]
     = [1024; 768].
Proof.
  split; [reflexivity|]. split; [vm_compute; reflexivity|].
  split; [vm_compute; reflexivity|].
  cbn [map]. rewrite !repeat_length. reflexivity.
Qed.

(** A batch the provider answers, and a batch it refuses. *)
Lemma embed_same_length_same_order_witness :
  (exists result w',
      IndexDocs.embed Demo.nomic ["a"; "b"] Demo.w0 = (inr result, w')
      /\ List.length result = 2)
  /\ (exists result w',
         IndexDocs.embed Demo.nomic ["a"; "bad"; "c"] Demo.w0 = (inr result, w')
         /\ List.length result = 3).
Proof.
  split.
  - destruct (embed_same_length_same_order (H := Demo.counting_client) Demo.nomic ["a"; "b"] Demo.w0
                (inr {| IndexDocs.data :=
                          [ {| IndexDocs.embedding := [1%float] |};
                            {| IndexDocs.embedding := [2%float] |} ] |})
                1 eq_refl eq_refl)
      as (result & w' & Hrun & Hlen & _).
    exists result, w'. split; [exact Hrun | exact Hlen].
  - destruct (embed_same_length_same_order (H := Demo.counting_client) Demo.nomic ["a"; "bad"; "c"] Demo.w0
                (inl (APIError "context length exceeded")) 1
                eq_refl ltac:(simpl; lia))
      as (result & w' & Hrun & Hlen & _).
    exists result, w'. split; [exact Hrun | exact Hlen].
Defined.

(** A text of 6001 characters is delivered as its first 6000. *)
Lemma embed_delivers_truncated_witness :
  String.length (IndexDocs.truncate Demo.long_text) = 6000
  /\ IndexDocs.truncate "short" = "short".
Proof.
  pose proof (embed_delivers_truncated (H := Demo.counting_client) Demo.nomic [Demo.long_text] Demo.w0)
    as (_ & _ & Hshort & Hlong).
  split.
  - apply Hlong. apply Nat.ltb_lt. vm_compute. reflexivity.
  - apply Hshort. apply Nat.leb_le. vm_compute. reflexivity.
Defined.

(** A single refused text: the provider's exception comes back. *)
Lemma embed_single_text_propagates_witness :
  IndexDocs.embed Demo.nomic ["bad"] Demo.w0
  = (inl (Exc (APIError "context length exceeded")),
     mkWorld 1 [["bad"]] [] []).
Proof.
  exact (embed_single_text_propagates (H := Demo.counting_client) Demo.nomic ["bad"] Demo.w0
           (APIError "context length exceeded") 1 eq_refl eq_refl).
Defined.

(* ================================================================== *)
(** ** The batch pipeline of the CLI *)
(* ================================================================== *)

Lemma batches_of_app (a b : list EngineCall) :
  batches_of (a ++ b) = (batches_of a ++ batches_of b)%list.
Proof.
  induction a as [|[? ?|? ? ?|? ? ? ?] a IH]; simpl; rewrite ?IH; reflexivity.
Qed.






Section PipelineFacts.

Import IndexDocs.
Context {G : Type} `{Engine G}.
Variable fs : FileSystem.
Variable args : Args.
Variable indexer : GibRAMIndexer.

Local Abbreviation B := (arg_batch_size args).

Lemma after_read_length (path : str) (b : list str) :
  List.length (after_read fs path b) <= S (List.length b).
Proof.
  unfold after_read; destruct (read_text fs path); [lia|].
  rewrite length_app; simpl; lia.
Qed.

(** One round of the loop: either it leaves the engine alone and keeps the
    batch, or it hands the batch to the engine, adds the answer to the
    totals and starts an empty batch; an exception of the engine ends it. *)
Lemma index_step_run (n i : nat) (path : str) (st : Totals) (w : GW G) :
  let batch1 := after_read fs path (batch st) in
  exists out : list str,
    index_step fs args indexer n i path st w =
    if flushes B n i batch1 then
      let (r, g') := engine_index_documents indexer batch1 (ext w) in
      (match r with
       | inr stats =>
           inr {| total_entities := total_entities st + entities_extracted stats;
                  total_relationships :=
                    total_relationships st + relationships_extracted stats;
                  batch := [] |}
       | inl e => inl (Exc e)
       end,
       mkWorld g' (trace w ++ [CallIndexDocuments indexer batch1 r])
               (stdout w ++ out) (stderr w))
    else
      (inr {| total_entities := total_entities st;
              total_relationships := total_relationships st;
              batch := batch1 |},
       mkWorld (ext w) (trace w) (stdout w ++ out) (stderr w)).
Proof.
  unfold index_step, after_read, flushes, bind.
  destruct (read_text fs path) as [e|text]; simpl.
  - destruct ((B <=? Z.of_nat (List.length (batch st)))%Z || Nat.eqb i n); simpl.
    + destruct (nonempty (batch st)); simpl.
      * unfold index_documents, print; simpl.
        destruct (engine_index_documents indexer (batch st) (ext w)) as [[e'|stats] g'];
          simpl; eexists; rewrite <- ?app_assoc; reflexivity.
      * eexists; reflexivity.
    + eexists; reflexivity.
  - destruct ((B <=? Z.of_nat (List.length (batch st ++ [text])))%Z || Nat.eqb i n); simpl.
    + destruct (nonempty (batch st ++ [text])); simpl.
      * unfold index_documents, print; simpl.
        destruct (engine_index_documents indexer (batch st ++ [text]) (ext w))
          as [[e'|stats] g']; simpl.
        -- exists []; rewrite app_nil_r; reflexivity.
        -- eexists; reflexivity.
      * exists []; destruct w; simpl; rewrite app_nil_r; reflexivity.
    + exists []; destruct w; simpl; rewrite app_nil_r; reflexivity.
Qed.

Lemma flushes_batch_ok (n i : nat) (path : str) (b : list str) :
  (Z.of_nat (List.length b) < Z.max 1 B)%Z ->
  flushes B n i (after_read fs path b) = true ->
  batch_ok B (after_read fs path b).
Proof.
  intros Hb Hf. pose proof (after_read_length path b) as Hlen.
  unfold flushes in Hf. apply andb_true_iff in Hf as [_ Hne].
  unfold batch_ok. destruct (after_read fs path b); [discriminate|].
  simpl in *. lia.
Qed.

Lemma no_flush_room (n i : nat) (b1 : list str) :
  flushes B n i b1 = false ->
  (Z.of_nat (List.length b1) < Z.max 1 B)%Z.
Proof.
  unfold flushes; intros Hf. apply andb_false_iff in Hf as [Hf|Hf].
  - apply orb_false_iff in Hf as [Hf _]. apply Z.leb_gt in Hf. lia.
  - destruct b1; [simpl; lia | discriminate].
Qed.

(** Every batch the loop hands to the engine is a [batch_ok] one. *)
Lemma index_loop_bounded (n : nat) (files : list str) :
  forall (i : nat) (st : Totals) (w : GW G),
    (Z.of_nat (List.length (batch st)) < Z.max 1 B)%Z ->
    exists calls : list EngineCall,
      trace (snd (index_loop fs args indexer n i files st w)) = (trace w ++ calls)%list
      /\ List.length (batches_of calls) = List.length calls
      /\ Forall (batch_ok B) (batches_of calls).
Proof.
  induction files as [|path rest IH]; intros i st w Hroom.
  - exists []; simpl; rewrite app_nil_r; auto.
  - simpl index_loop. unfold bind.
    destruct (index_step_run n i path st w) as [out Hstep]. rewrite Hstep.
    destruct (flushes B n i (after_read fs path (batch st))) eqn:Hf.
    + pose proof (flushes_batch_ok n i path (batch st) Hroom Hf) as Hok.
      destruct (engine_index_documents indexer (after_read fs path (batch st)) (ext w))
        as [[e|stats] g'].
      * exists [CallIndexDocuments indexer (after_read fs path (batch st)) (inl e)].
        simpl; auto.
      * match goal with |- context [index_loop _ _ _ _ _ _ ?st1 ?w1] =>
          destruct (IH (S i) st1 w1) as (calls & Htr & Hlen & Hall)
        end.
        { simpl; lia. }
        exists (CallIndexDocuments indexer (after_read fs path (batch st)) (inr stats)
                  :: calls).
        rewrite Htr. simpl. rewrite <- app_assoc. simpl.
        split; [reflexivity|]. split; [f_equal; exact Hlen|].
        constructor; assumption.
    + match goal with |- context [index_loop _ _ _ _ _ _ ?st1 ?w1] =>
        destruct (IH (S i) st1 w1) as (calls & Htr & Hlen & Hall)
      end.
      { simpl. eapply no_flush_room; eassumption. }
      exists calls. rewrite Htr. simpl. auto.
Qed.




Lemma run_pipeline_run (md_files : list str) (w : GW G) :
  run_pipeline fs args indexer md_files w =
  match index_loop fs args indexer (List.length md_files) 1 md_files
          {| total_entities := 0; total_relationships := 0; batch := [] |} w with
  | (inr st, w1) =>
      (inr st,
       mkWorld (ext w1) (trace w1)
               (stdout w1
                ++ [nl ++ "Done.";
                    "  Total entities:      " ++ str_of_Z (total_entities st);
                    "  Total relationships: " ++ str_of_Z (total_relationships st);
                    "  Session ID:          " ++ arg_session_id args])
               (stderr w1))
  | (inl e, w1) => (inl e, w1)
  end.
Proof.
  unfold run_pipeline, bind.
  destruct (index_loop fs args indexer (List.length md_files) 1 md_files _ w)
    as [[e|st] w1]; [reflexivity|].
  unfold print; simpl. rewrite <- !app_assoc. reflexivity.
Qed.


(** Against an engine that always answers, the loop comes to its end. *)
Lemma index_loop_progress (n : nat) (files : list str) :
  engine_answers G ->
  forall (i : nat) (st : Totals) (w : GW G),
    exists (st' : Totals) (w' : GW G),
      index_loop fs args indexer n i files st w = (inr st', w').
Proof.
  intros [_ Hans]. induction files as [|path rest IH]; intros i st w.
  - exists st, w; reflexivity.
  - simpl index_loop. unfold bind.
    destruct (index_step_run n i path st w) as [out Hstep]. rewrite Hstep.
    destruct (flushes B n i (after_read fs path (batch st))).
    + destruct (Hans indexer (after_read fs path (batch st)) (ext w))
        as (stats & g' & Hcall).
      rewrite Hcall. apply IH.
    + apply IH.
Qed.

Lemma run_pipeline_progress (md_files : list str) (w : GW G) :
  engine_answers G ->
  exists (st : Totals) (w' : GW G),
    run_pipeline fs args indexer md_files w = (inr st, w').
Proof.
  intros Hans. rewrite run_pipeline_run.
  destruct (index_loop_progress (List.length md_files) md_files Hans 1
              {| total_entities := 0; total_relationships := 0; batch := [] |} w)
    as (st & w1 & Hloop).
  rewrite Hloop. eauto.
Qed.

Lemma run_pipeline_bounded (md_files : list str) (w : GW G) :
  exists calls : list EngineCall,
    trace (snd (run_pipeline fs args indexer md_files w)) = (trace w ++ calls)%list
    /\ List.length (batches_of calls) = List.length calls
    /\ Forall (batch_ok B) (batches_of calls).
Proof.
  rewrite run_pipeline_run.
  destruct (index_loop_bounded (List.length md_files) md_files 1
              {| total_entities := 0; total_relationships := 0; batch := [] |} w)
    as (calls & Htr & Hlen & Hall); [simpl; lia|].
  exists calls.
  destruct (index_loop fs args indexer (List.length md_files) 1 md_files _ w)
    as [[e|st1] w1]; simpl in *; auto.
Qed.

End PipelineFacts.

(* ================================================================== *)
(** ** The CLI as a whole *)
(* ================================================================== *)

Section MainFacts.

Import IndexDocs.
Context {G : Type} `{Engine G}.
Variable fs : FileSystem.
Variable environ : Environ.
Variable args : Args.

(** [main], branch by branch. *)
Lemma main_run (w : GW G) :
  main fs environ args w =
  let docs_dir := resolve fs (arg_dir args) in
  let md_files := sorted_rglob_md fs docs_dir in
  if negb (exists_ fs docs_dir) then
    (inl (SystemExit 1),
     mkWorld (ext w) (trace w) (stdout w)
             (stderr w ++ ["Error: Directory not found: " ++ docs_dir]))
  else if negb (nonempty md_files) then
    (inl (SystemExit 0),
     mkWorld (ext w) (trace w)
             (stdout w ++ ["No markdown files found in " ++ docs_dir]) (stderr w))
  else if remote_requested args && negb (credential_present environ) then
    (inl (SystemExit 1),
     mkWorld (ext w) (trace w) (stdout w)
             (stderr w ++ ["Error: OPENAI_API_KEY required with --openai / --openai-embed"]))
  else
    let api_key :=
      if remote_requested args then environ_get environ "OPENAI_API_KEY" else None in
    let w1 := mkWorld (ext w) (trace w)
                      (stdout w ++ banner args api_key md_files docs_dir) (stderr w) in
    match new_indexer (main_indexer args api_key) w1 with
    | (inl e, w2) => (inl e, w2)
    | (inr indexer, w2) =>
        match run_pipeline fs args indexer md_files w2 with
        | (inl e, w3) => (inl e, w3)
        | (inr _, w3) => (inr tt, w3)
        end
    end.
Proof.
  unfold main, bind, remote_requested, credential_present, main_indexer, banner.
  cbv zeta.
  destruct (exists_ fs (resolve fs (arg_dir args))); cbn -[String.append];
    [|reflexivity].
  destruct (nonempty (sorted_rglob_md fs (resolve fs (arg_dir args))));
    cbn -[String.append]; [|reflexivity].
  destruct (arg_openai args || arg_openai_embed args); cbn -[String.append].
  - destruct (environ_get environ "OPENAI_API_KEY") as [k|]; cbn -[String.append];
      [|reflexivity].
    destruct (truthy k); cbn -[String.append]; [|reflexivity].
    destruct (select_backend args (Some k)) as [[extractor embedder] backend].
    cbn -[String.append]. rewrite <- !app_assoc. reflexivity.
  - destruct (select_backend args None) as [[extractor embedder] backend].
    cbn -[String.append]. rewrite <- !app_assoc. reflexivity.
Qed.

(** A remote backend asked for without a credential: [main] stops at
    [sys.exit] and the engine has not been reached. *)
Lemma main_remote_without_credential (w : GW G) :
  remote_requested args = true ->
  credential_present environ = false ->
  (exists code, fst (main fs environ args w) = inl (SystemExit code))
  /\ ext (snd (main fs environ args w)) = ext w
  /\ trace (snd (main fs environ args w)) = trace w.
Proof.
  intros Hremote Hcred. rewrite main_run. cbv zeta. rewrite Hremote, Hcred.
  destruct (exists_ fs (resolve fs (arg_dir args))); simpl; [|eauto].
  destruct (nonempty (sorted_rglob_md fs (resolve fs (arg_dir args)))); simpl; eauto.
Qed.

(** The local backend never looks at the environment. *)
Lemma main_local_ignores_environ (w : GW G) :
  remote_requested args = false ->
  main fs environ args w = main fs [] args w.
Proof.
  unfold main, remote_requested. intros Hlocal. rewrite Hlocal. reflexivity.
Qed.

Lemma nonempty_true (A : Type) (xs : list A) : xs <> [] -> nonempty xs = true.
Proof. destruct xs; [contradiction | reflexivity]. Qed.

(** C9: the exit status of the CLI.  It is 1, with the error on stderr,
    when the directory does not exist; 0, after the line
    [No markdown files found in ...], when the directory exists and holds
    no markdown file; 1, with the error on stderr, when there are files,
    a remote backend is asked for and [OPENAI_API_KEY] is unset or empty
    (the checks come in this order); and 0 when none of these holds and
    the engine answers every call.  In the first three cases the engine
    has not been reached: its state and the trace of calls are unchanged. *)
Theorem main_exit_codes (w : GW G) :
  let docs_dir := resolve fs (arg_dir args) in
  let md_files := sorted_rglob_md fs docs_dir in
  (exists_ fs docs_dir = false ->
   exit_status (main fs environ args) w
   = (1%Z, mkWorld (ext w) (trace w) (stdout w)
                   (stderr w ++ ["Error: Directory not found: " ++ docs_dir])))
  /\ (exists_ fs docs_dir = true -> md_files = [] ->
      exit_status (main fs environ args) w
      = (0%Z, mkWorld (ext w) (trace w)
                      (stdout w ++ ["No markdown files found in " ++ docs_dir])
                      (stderr w)))
  /\ (exists_ fs docs_dir = true -> md_files <> [] ->
      remote_requested args = true -> credential_present environ = false ->
      exit_status (main fs environ args) w
      = (1%Z, mkWorld (ext w) (trace w) (stdout w)
                      (stderr w
                       ++ ["Error: OPENAI_API_KEY required with --openai / --openai-embed"])))
  /\ (exists_ fs docs_dir = true -> md_files <> [] ->
      remote_requested args = false \/ credential_present environ = true ->
      engine_answers G ->
      fst (exit_status (main fs environ args) w) = 0%Z).
Proof.
  intros docs_dir md_files. unfold exit_status. rewrite main_run. cbv zeta.
  fold docs_dir. fold md_files.
  split; [|split; [|split]].
  - intros ->. reflexivity.
  - intros -> ->. reflexivity.
  - intros -> Hfiles -> ->. rewrite (nonempty_true _ _ Hfiles). reflexivity.
  - intros -> Hfiles Hcred Hans. rewrite (nonempty_true _ _ Hfiles).
    replace (remote_requested args && negb (credential_present environ)) with false
      by (destruct Hcred as [-> | ->]; [reflexivity | rewrite andb_false_r; reflexivity]).
    cbn [negb].
    match goal with |- context [new_indexer ?c ?w1] =>
      set (cfg := c); set (w1' := w1) end.
    unfold new_indexer.
    destruct Hans as [Hnew Hidx].
    destruct (Hnew cfg (ext w1')) as (g' & Hcall). rewrite Hcall. cbn [lift_result].
    match goal with |- context [run_pipeline fs args cfg md_files ?w2] =>
      destruct (run_pipeline_progress fs args cfg md_files w2 (conj Hnew Hidx))
        as (st & w3 & Hrun) end.
    rewrite Hrun. reflexivity.
Qed.

(** C10: every batch the CLI hands to the engine holds at least one
    document, and at most as many as the batch size (where the batch size
    is at least one, [Z.max 1] of it is the batch size itself; a batch size
    below one makes every batch a single document).  This holds for every
    file system, so also when files, or all files of the last group,
    cannot be read. *)
Theorem main_batches_bounded (w : GW G) :
  exists calls : list EngineCall,
    trace (snd (main fs environ args w)) = (trace w ++ calls)%list
    /\ Forall (fun docs : list str =>
                 1 <= List.length docs
                 /\ (Z.of_nat (List.length docs) <= Z.max 1 (arg_batch_size args))%Z)
              (batches_of calls).
Proof.
  rewrite main_run. cbv zeta.
  destruct (exists_ fs (resolve fs (arg_dir args)));
    [|exists []; simpl; rewrite app_nil_r; auto].
  destruct (nonempty (sorted_rglob_md fs (resolve fs (arg_dir args))));
    [|exists []; simpl; rewrite app_nil_r; auto].
  destruct (remote_requested args && negb (credential_present environ));
    [exists []; simpl; rewrite app_nil_r; auto|].
  cbn [negb].
  match goal with |- context [new_indexer ?c ?w1] => set (cfg := c); set (w1' := w1) end.
  unfold new_indexer.
  destruct (engine_new cfg (ext w1')) as [[e|[]] g']; cbn [lift_result].
  - exists [CallNew cfg (inl e)]. simpl. auto.
  - match goal with |- context [run_pipeline fs args cfg ?md ?w2] =>
      destruct (run_pipeline_bounded fs args cfg md w2) as (calls & Htr & _ & Hall);
      destruct (run_pipeline fs args cfg md w2) as [[e|st] w3]
    end;
      exists (CallNew cfg (inr tt) :: calls); simpl in *; rewrite Htr, <- app_assoc;
      split; try reflexivity; exact Hall.
Qed.

End MainFacts.



(** The four ways the CLI ends. *)
Lemma main_exit_codes_witness :
  fst (IndexDocs.exit_status
         (IndexDocs.main Demo.empty_dir [] (Demo.args_from "/nowhere" 50 false false))
         Demo.g0) = 1%Z
  /\ fst (IndexDocs.exit_status
            (IndexDocs.main Demo.empty_dir [] (Demo.args_from "/empty" 50 true false))
            Demo.g0) = 0%Z
  /\ fst (IndexDocs.exit_status
            (IndexDocs.main Demo.five_files [] (Demo.args_from "/docs" 50 true false))
            Demo.g0) = 1%Z
  /\ fst (IndexDocs.exit_status
            (IndexDocs.main Demo.five_files [("OPENAI_API_KEY", "sk-test")]
                            (Demo.args_from "/docs" 50 true false))
            Demo.g0) = 0%Z.
Proof.
  split; [|split; [|split]].
  - rewrite (proj1 (main_exit_codes (H := Demo.scripted_engine) Demo.empty_dir []
                      (Demo.args_from "/nowhere" 50 false false) Demo.g0) eq_refl).
    reflexivity.
  - rewrite (proj1 (proj2 (main_exit_codes (H := Demo.scripted_engine) Demo.empty_dir []
                             (Demo.args_from "/empty" 50 true false) Demo.g0))
               eq_refl eq_refl).
    reflexivity.
  - rewrite (proj1 (proj2 (proj2 (main_exit_codes (H := Demo.scripted_engine)
                                    Demo.five_files []
                                    (Demo.args_from "/docs" 50 true false) Demo.g0)))
               eq_refl ltac:(discriminate) eq_refl eq_refl).
    reflexivity.
  - apply (proj2 (proj2 (proj2 (main_exit_codes (H := Demo.scripted_engine)
                                  Demo.five_files [("OPENAI_API_KEY", "sk-test")]
                                  (Demo.args_from "/docs" 50 true false) Demo.g0)))).
    + reflexivity.
    + discriminate.
    + right; reflexivity.
    + split; intros; simpl; eauto.
Defined.

(* ================================================================== *)
(** ** The tool facade *)
(* ================================================================== *)

Section FacadeFacts.

Import McpServer.
Context {G : Type} `{Engine G}.
Variable g : Globals.
Variable fs : FileSystem.
Variable format_3f : float -> str.

(** [_indexer] has no check of its own: it constructs the indexer of the
    backend, whatever the credential is. *)
Lemma _indexer_run (session_id : str) (w : GW G) :
  _indexer g session_id w = new_indexer (facade_indexer g session_id) w.
Proof.
  unfold _indexer, facade_indexer. destruct (USE_OPENAI g); reflexivity.
Qed.

Lemma read_all_run (md_files : list str) :
  forall (docs : list str) (skipped : nat),
    read_all fs md_files docs skipped
    = ((docs ++ readable fs md_files)%list, skipped + unreadable fs md_files).
Proof.
  induction md_files as [|p rest IH]; intros docs skipped; simpl.
  - rewrite app_nil_r, Nat.add_0_r. reflexivity.
  - destruct (read_text fs p) as [e|text]; rewrite IH.
    + f_equal. lia.
    + rewrite <- app_assoc. reflexivity.
Qed.

(** [index_directory] on a directory that exists and holds markdown files,
    once the indexer is constructed: one call of [index_documents], on all
    the documents that could be read. *)
Lemma index_directory_run (path session_id : str) (w : GW G) (g1 : G) :
  exists_ fs (resolve fs path) = true ->
  sorted_rglob_md fs (resolve fs path) <> [] ->
  engine_new (facade_indexer g session_id) (ext w) = (inr tt, g1) ->
  let cfg := facade_indexer g session_id in
  let docs := readable fs (sorted_rglob_md fs (resolve fs path)) in
  exists (outcome : BaseException + str),
    index_directory g fs path session_id w
    = (outcome,
       mkWorld (snd (engine_index_documents cfg docs g1))
               (trace w ++ [CallNew cfg (inr tt);
                            CallIndexDocuments cfg docs
                              (fst (engine_index_documents cfg docs g1))])
               (stdout w) (stderr w))
    /\ (forall e, fst (engine_index_documents cfg docs g1) = inl e ->
                  outcome = inl (Exc e))
    /\ (forall stats, fst (engine_index_documents cfg docs g1) = inr stats ->
                      exists summary, outcome = inr summary).
Proof.
  intros Hexists Hfiles Hnew cfg docs.
  unfold index_directory. rewrite Hexists, (nonempty_true _ _ Hfiles). cbn [negb].
  unfold bind. rewrite _indexer_run. unfold new_indexer.
  rewrite Hnew. cbn [lift_result].
  rewrite read_all_run. cbn [app]. fold docs. fold cfg.
  unfold index_documents. cbn [ext trace stdout stderr].
  destruct (engine_index_documents cfg docs g1) as [[e|stats] g2]; cbn [lift_result fst snd].
  - eexists. rewrite <- app_assoc. split; [reflexivity|].
    split; [intros e' [= <-]; reflexivity | intros stats [=]].
  - eexists. rewrite <- app_assoc. split; [reflexivity|].
    split; [intros e [=] | intros stats' _; eauto].
Qed.

(** C5, as the code has it: the facade does not go through the batch
    pipeline.  For a directory that exists and holds markdown files, once
    the indexer is constructed, [index_directory] calls the engine exactly
    once, with all the documents that could be read (none, when no file
    could be read), whatever their number. *)
Theorem index_directory_single_call (path session_id : str) (w : GW G) (g1 : G) :
  exists_ fs (resolve fs path) = true ->
  sorted_rglob_md fs (resolve fs path) <> [] ->
  engine_new (facade_indexer g session_id) (ext w) = (inr tt, g1) ->
  exists calls : list EngineCall,
    trace (snd (index_directory g fs path session_id w)) = (trace w ++ calls)%list
    /\ batches_of calls = [readable fs (sorted_rglob_md fs (resolve fs path))].
Proof.
  intros Hexists Hfiles Hnew.
  destruct (index_directory_run path session_id w g1 Hexists Hfiles Hnew)
    as (outcome & Hrun & _).
  rewrite Hrun. cbn [snd trace]. eexists. split; reflexivity.
Qed.

(** [query_docs] when the indexer is constructed and the retrieval
    answers without entities. *)
Lemma query_docs_empty_run (query session_id : str) (top_k : Z) (w : GW G)
      (g1 g2 : G) (results : QueryResult) :
  engine_new (facade_indexer g session_id) (ext w) = (inr tt, g1) ->
  engine_query (facade_indexer g session_id) query top_k g1 = (inr results, g2) ->
  entities results = [] ->
  query_docs g format_3f query session_id top_k w
  = (inr ("No results found for: " ++ repr query ++ " in session " ++ repr session_id),
     mkWorld g2
             (trace w ++ [CallNew (facade_indexer g session_id) (inr tt);
                          CallQuery (facade_indexer g session_id) query top_k
                                    (inr results)])
             (stdout w) (stderr w)).
Proof.
  intros Hnew Hquery Hnone.
  unfold query_docs, bind. rewrite _indexer_run. unfold new_indexer.
  rewrite Hnew. cbn [lift_result]. unfold Gibram.query. cbn [ext trace stdout stderr].
  rewrite Hquery. cbn [lift_result]. rewrite Hnone. cbn [nonempty negb].
  unfold ret. rewrite <- app_assoc. reflexivity.
Qed.

(** C8, as the code has it: when the retrieval answers without entities,
    [query_docs] returns, without raising, the text
    [No results found for: Q in session S] where [Q] and [S] are the
    [repr] of the query and of the session identifier (the Python literal:
    quoted, with escapes).  The message holds the query, and the session
    identifier, letter for letter when [repr] escapes none of its
    characters. *)
Theorem query_docs_no_results (query session_id : str) (top_k : Z) (w : GW G)
        (g1 g2 : G) (results : QueryResult) :
  engine_new (facade_indexer g session_id) (ext w) = (inr tt, g1) ->
  engine_query (facade_indexer g session_id) query top_k g1 = (inr results, g2) ->
  entities results = [] ->
  exists msg : str,
    fst (query_docs g format_3f query session_id top_k w) = inr msg
    /\ msg = "No results found for: " ++ repr query ++ " in session " ++ repr session_id
    /\ contains msg (repr query)
    /\ contains msg (repr session_id)
    /\ (verbatim query = true -> contains msg query)
    /\ (verbatim session_id = true -> contains msg session_id).
Proof.
  intros Hnew Hquery Hnone.
  rewrite (query_docs_empty_run _ _ _ _ _ _ _ Hnew Hquery Hnone).
  eexists. split; [reflexivity|]. split; [reflexivity|].
  assert (contains ("No results found for: " ++ repr query ++ " in session "
                    ++ repr session_id) (repr query)) as Hq.
  { exists "No results found for: ", (" in session " ++ repr session_id). reflexivity. }
  assert (contains ("No results found for: " ++ repr query ++ " in session "
                    ++ repr session_id) (repr session_id)) as Hs.
  { exists ("No results found for: " ++ repr query ++ " in session "), EmptyString.
    rewrite append_empty_r, !append_assoc. reflexivity. }
  split; [exact Hq|]. split; [exact Hs|].
  split; intros Hv.
  - exact (contains_trans _ _ _ Hq (repr_verbatim _ Hv)).
  - exact (contains_trans _ _ _ Hs (repr_verbatim _ Hv)).
Qed.

End FacadeFacts.

(** A query without escapes against a corpus that answers nothing. *)
Lemma query_docs_no_results_witness :
  exists msg : str,
    fst (McpServer.query_docs Demo.globals0 Demo.format_3f
                              "what is gibram" "notes" 5 Demo.g0) = inr msg
    /\ contains msg "what is gibram"
    /\ contains msg "notes".
Proof.
  destruct (query_docs_no_results (H := Demo.scripted_engine)
              Demo.globals0 Demo.format_3f "what is gibram" "notes" 5 Demo.g0
              0 1 {| entities := [] |} eq_refl eq_refl eq_refl)
    as (msg & Hrun & _ & _ & _ & Hq & Hs).
  exists msg. split; [exact Hrun|].
  split; [apply Hq; reflexivity | apply Hs; reflexivity].
Defined.

(** C8 as stated fails: for a query of two lines the retrieval answers
    without entities, and the message shows the line break as the two
    characters backslash and [n]: the query is not part of the message. *)
Lemma query_docs_escapes_query :
  (exists cfg : GibRAMIndexer,
      trace (snd (McpServer.query_docs Demo.globals0 Demo.format_3f
                                       Demo.two_line_query "notes" 5 Demo.g0))
      = [CallNew cfg (inr tt);
         CallQuery cfg Demo.two_line_query 5 (inr {| entities := [] |})])
  /\ fst (McpServer.query_docs Demo.globals0 Demo.format_3f
                               Demo.two_line_query "notes" 5 Demo.g0)
     = inr "No results found for: 'first line\nsecond line' in session 'notes'"
  /\ ~ contains "No results found for: 'first line\nsecond line' in session 'notes'"
                Demo.two_line_query.
Proof.
  split; [eexists; vm_compute; reflexivity|].
  split; [vm_compute; reflexivity|].
  intros Hc. apply containsb_complete in Hc. vm_compute in Hc. discriminate.
Qed.

Lemma readable_many_files (k : nat) (files : list str) :
  List.length (readable (Demo.many_files k) files) = List.length files.
Proof. induction files as [|p rest IH]; simpl; auto. Qed.

(** Five files through the facade: one call, of five documents. *)
Lemma index_directory_single_call_witness :
  exists calls : list EngineCall,
    trace (snd (McpServer.index_directory Demo.globals0 Demo.five_files
                                          "/docs" "my-corpus" Demo.g0)) = calls
    /\ map (@List.length str) (batches_of calls) = [5].
Proof.
  destruct (index_directory_single_call (H := Demo.scripted_engine)
              Demo.globals0 Demo.five_files "/docs" "my-corpus" Demo.g0 0
              eq_refl ltac:(discriminate) eq_refl)
    as (calls & Htr & Hb).
  exists calls. split; [exact Htr|]. rewrite Hb. reflexivity.
Defined.

(** C5 as stated fails: on the five files that the CLI, with a batch size
    of 2, hands over in three calls of 2, 2 and 1 documents, the facade
    makes one call of 5 documents; and no batch size bounds what the facade
    hands over in one call. *)
Lemma index_directory_not_batched :
  map (@List.length str)
      (batches_of (trace (snd (McpServer.index_directory
                                 Demo.globals0 Demo.five_files
                                 "/docs" "my-corpus" Demo.g0)))) = [5]
  /\ map (@List.length str)
         (batches_of (trace (snd (IndexDocs.run_pipeline
                                    Demo.five_files Demo.args0 Demo.indexer0
                                    (sorted_rglob_md Demo.five_files "/docs")
                                    Demo.g0)))) = [2; 2; 1]
  /\ ~ (exists B : nat, forall k : nat,
           Forall (fun docs : list str => List.length docs <= B)
                  (batches_of (trace (snd (McpServer.index_directory
                                             Demo.globals0 (Demo.many_files k)
                                             "/docs" "my-corpus" Demo.g0))))).
Proof.
  split; [vm_compute; reflexivity|]. split; [vm_compute; reflexivity|].
  intros [B HB]. specialize (HB (S B)).
  destruct (index_directory_run (H := Demo.scripted_engine)
              Demo.globals0 (Demo.many_files (S B)) "/docs" "my-corpus" Demo.g0 0
              eq_refl ltac:(simpl; discriminate) eq_refl)
    as (outcome & Hrun & _).
  rewrite Hrun in HB. cbn [snd trace app batches_of] in HB.
  apply Forall_inv in HB. rewrite readable_many_files in HB.
  cbn [Demo.many_files sorted_rglob_md] in HB. rewrite repeat_length in HB. lia.
Qed.

(** C4, the facade: with [GIBRAM_BACKEND] set to [OpenAI] and no
    [OPENAI_API_KEY] in the environment, the server selects the remote
    backend with an empty credential, [_indexer] constructs the indexer
    with it on every call, whatever the engine, and [query_docs] goes on to
    the retrieval: nothing checks the credential first. *)
Theorem facade_remote_without_credential :
  McpServer.load_globals Demo.py_int [("GIBRAM_BACKEND", "OpenAI")]
  = inr Demo.globals_openai_no_key
  /\ (forall (G : Type) (E : Engine G) (session_id : str) (w : GW G),
         let cfg :=
           {| session_id := session_id;
              host := "localhost";
              port := 6161;
              extractor := {| extractor_class := OpenAIExtractor;
                              extractor_model := "gpt-4o";
                              extractor_api_key := Some EmptyString;
                              extractor_base_url := None |};
              embedder := {| embedder_class := OpenAIEmbedder;
                             embedder_model := "text-embedding-3-small";
                             embedder_api_key := Some EmptyString;
                             embedder_base_url := None |} |} in
         McpServer._indexer Demo.globals_openai_no_key session_id w = new_indexer cfg w
         /\ trace (snd (McpServer._indexer Demo.globals_openai_no_key session_id w))
            = (trace w ++ [CallNew cfg (fst (engine_new cfg (ext w)))])%list)
  /\ (exists cfg : GibRAMIndexer,
         extractor_api_key (extractor cfg) = Some EmptyString
         /\ embedder_api_key (embedder cfg) = Some EmptyString
         /\ McpServer.query_docs Demo.globals_openai_no_key Demo.format_3f
                                 "what is gibram" "notes" 5 Demo.g0
            = (inr "No results found for: 'what is gibram' in session 'notes'",
               mkWorld 1 [CallNew cfg (inr tt);
                          CallQuery cfg "what is gibram" 5 (inr {| entities := [] |})]
                       [] [])).
Proof.
  split; [vm_compute; reflexivity|]. split.
  - intros G E session_id w cfg.
    rewrite (_indexer_run Demo.globals_openai_no_key session_id w).
    change (facade_indexer Demo.globals_openai_no_key session_id) with cfg.
    split; [reflexivity|].
    unfold new_indexer. destruct (engine_new cfg (ext w)) as [r g']. reflexivity.
  - eexists. split; [|split]; [| |vm_compute; reflexivity]; reflexivity.
Qed.

(* ================================================================== *)
(** ** More on the resilient embedder *)
(* ================================================================== *)

Lemma attempt_log_length (os : list (Exception + list float)) :
  List.length (flat_map attempt_log os) = count_failed os.
Proof.
  induction os as [|[e|v] os IH]; simpl; auto.
Qed.

Lemma count_failed_le (os : list (Exception + list float)) :
  count_failed os <= List.length os.
Proof. induction os as [|[e|v] os IH]; simpl; lia. Qed.

Section EmbedderMore.

Import IndexDocs.
Context {P : Type} `{EmbeddingsClient P}.
Variable self : Embedder.

(** What [embed] does when the batch request raises on a single text. *)
Lemma embed_single_text_run (texts : list str) (w : EW P) (e : Exception) (p' : P) :
  List.length texts = 1 ->
  embeddings_create (embedder_model self) (map truncate texts) (ext w) = (inl e, p') ->
  embed self texts w =
  (inl (Exc e), mkWorld p' (trace w ++ [map truncate texts]) (stdout w) (stderr w)).
Proof.
  intros Hone Hbatch.
  unfold embed, try_except, bind, create. rewrite Hbatch. simpl.
  rewrite length_map, Hone. reflexivity.
Qed.

(** X1: [embed] on the empty list never raises.  It delivers exactly one
    request, the empty batch, and no individual request; when the provider
    refuses that request, the fallback has nothing to retry and the result
    is the empty list. *)
Theorem embed_empty_list (w : EW P) :
  exists (result : list (list float)) (w' : EW P),
    embed self [] w = (inr result, w')
    /\ trace w' = (trace w ++ [[]])%list
    /\ stderr w' = stderr w
    /\ (forall e, fst (embeddings_create (embedder_model self) [] (ext w)) = inl e ->
                  result = []).
Proof.
  destruct (embeddings_create (embedder_model self) [] (ext w)) as [[e|resp] p'] eqn:Hb.
  - do 2 eexists. split.
    + apply (embed_fallback_run self [] w e p'); [simpl; lia | exact Hb].
    + cbn [trace stderr map attempts fst]. auto.
  - do 2 eexists. split.
    + apply (embed_batch_run self [] w resp p'). exact Hb.
    + cbn [trace stderr map fst]. split; [reflexivity|]. split; [reflexivity|].
      intros e [=].
Qed.

(** X2: every vector the fallback replaces by zeros is reported.  A call
    of [embed] whose batch request is answered prints nothing; so does the
    call that re-raises for a single text; a call that falls back prints the
    line on the failed batch and then exactly one line per individual
    attempt that failed, in the order of the texts. *)
Theorem embed_reports_every_substitution (texts : list str) (w : EW P) :
  let truncated := map truncate texts in
  let r := embeddings_create (embedder_model self) truncated (ext w) in
  let outcomes := fst (attempts self truncated (snd r)) in
  stdout (snd (embed self texts w))
  = app (stdout w)
        match fst r with
        | inr _ => []
        | inl e =>
            if Nat.eqb (List.length texts) 1 then []
            else ("  [embed] Batch of " ++ str_of_nat (List.length truncated)
                  ++ " failed (" ++ str_of_exception e ++ "), retrying individually")
                   :: flat_map attempt_log outcomes
        end
  /\ List.length (flat_map attempt_log outcomes) = count_failed outcomes
  /\ count_failed outcomes <= List.length texts.
Proof.
  intros truncated r outcomes. split; [|split].
  - subst r outcomes truncated.
    destruct (embeddings_create (embedder_model self) (map truncate texts) (ext w))
      as [[e|resp] p'] eqn:Hb; cbn [fst snd].
    + destruct (Nat.eqb_spec (List.length texts) 1) as [Hone|Hmany].
      * rewrite (embed_single_text_run texts w e p' Hone Hb). cbn [snd stdout].
        rewrite app_nil_r. reflexivity.
      * rewrite (embed_fallback_run self texts w e p' Hmany Hb). cbn [snd stdout].
        rewrite <- app_assoc. reflexivity.
    + rewrite (embed_batch_run self texts w resp p' Hb). cbn [snd stdout].
      rewrite app_nil_r. reflexivity.
  - apply attempt_log_length.
  - subst outcomes.
    pose proof (count_failed_le (fst (attempts self truncated (snd r)))) as Hc.
    rewrite attempts_length in Hc. unfold truncated in Hc.
    rewrite length_map in Hc. exact Hc.
Qed.

(** X3: truncation is idempotent and bounded: a truncated text has at most
    [MAX_CHARS] characters and truncating it again changes nothing, so the
    texts the fallback sends alone are the very texts of the batch. *)
Theorem truncate_idempotent (t : str) :
  String.length (truncate t) <= MAX_CHARS
  /\ truncate (truncate t) = truncate t.
Proof.
  assert (String.length (truncate t) <= MAX_CHARS) as Hle.
  { unfold truncate. destruct (truthy t) eqn:Ht.
    - rewrite slice_to_length. lia.
    - destruct t; [simpl; lia | discriminate]. }
  split; [exact Hle | apply truncate_short; exact Hle].
Qed.

End EmbedderMore.

(* ================================================================== *)
(** ** More on the batch pipeline *)
(* ================================================================== *)

Lemma singletons_of_concat (bs : list (list str)) :
  Forall (fun b => List.length b = 1) bs ->
  bs = map (fun d => [d]) (List.concat bs).
Proof.
  induction 1 as [|b bs Hb _ IH]; simpl; [reflexivity|].
  destruct b as [|d [|d' b]]; try discriminate. simpl. f_equal. exact IH.
Qed.

Lemma batches_of_le (calls : list EngineCall) :
  List.length (batches_of calls) <= List.length calls.
Proof.
  induction calls as [|[? ?|? ? ?|? ? ? ?] calls IH]; simpl; lia.
Qed.

(** A trace made of indexing calls only shows no construction. *)
Lemma news_of_batches (calls : list EngineCall) :
  List.length (batches_of calls) = List.length calls -> news_of calls = [].
Proof.
  induction calls as [|[? ?|? ? ?|? ? ? ?] calls IH]; simpl; intros Hlen.
  - reflexivity.
  - pose proof (batches_of_le calls). lia.
  - apply IH. lia.
  - pose proof (batches_of_le calls). lia.
Qed.

Lemma stats_of_app (a b : list EngineCall) :
  stats_of (a ++ b) = (stats_of a ++ stats_of b)%list.
Proof.
  induction a as [|[? ?|? ? [?|?]|? ? ? ?] a IH]; simpl; rewrite ?IH; reflexivity.
Qed.

Section PipelineMore.

Import IndexDocs.
Context {G : Type} `{Engine G}.
Variable fs : FileSystem.
Variable args : Args.
Variable indexer : GibRAMIndexer.

Local Abbreviation B := (arg_batch_size args).

Lemma after_read_readable (path : str) (rest : list str) (b : list str) :
  (after_read fs path b ++ readable fs rest)%list = (b ++ readable fs (path :: rest))%list.
Proof.
  unfold after_read. simpl. destruct (read_text fs path) as [e|text];
    [reflexivity | rewrite <- app_assoc; reflexivity].
Qed.

(** What one round adds to stdout starts with the line on the file, when
    the file cannot be read. *)
Lemma index_step_out (n i : nat) (path : str) (st : Totals) (w : GW G) :
  exists out2 : list str,
    stdout (snd (index_step fs args indexer n i path st w))
    = (stdout w ++ skip_line fs path ++ out2)%list.
Proof.
  unfold index_step, skip_line, bind, index_documents.
  destruct (read_text fs path) as [e|text]; cbn -[String.append].
  - destruct ((B <=? Z.of_nat (List.length (batch st)))%Z || Nat.eqb i n);
      cbn -[String.append]; [|exists []; reflexivity].
    destruct (nonempty (batch st)); cbn -[String.append]; [|exists []; reflexivity].
    destruct (engine_index_documents indexer (batch st) (ext w)) as [[e'|stats] g'];
      cbn -[String.append]; [exists []; reflexivity|].
    eexists [_]. rewrite <- app_assoc. reflexivity.
  - destruct ((B <=? Z.of_nat (List.length (batch st ++ [text])))%Z || Nat.eqb i n);
      cbn -[String.append]; [|exists []; rewrite app_nil_r; reflexivity].
    destruct (nonempty (batch st ++ [text])); cbn -[String.append];
      [|exists []; rewrite app_nil_r; reflexivity].
    destruct (engine_index_documents indexer (batch st ++ [text]) (ext w))
      as [[e'|stats] g']; cbn -[String.append];
      [exists []; rewrite app_nil_r; reflexivity|].
    eexists [_]. reflexivity.
Qed.

(** A loop that comes to its end, whatever the batch size: the batches it
    handed over, put end to end, are the documents it held and read, each
    once and in order; every call was answered and the totals grew by the
    answers; stdout holds the line of every file that could not be read. *)
Lemma index_loop_conserves (n : nat) (files : list str) :
  forall (i : nat) (st : Totals) (w : GW G) (st' : Totals) (w' : GW G),
    i + List.length files = S n ->
    (files = [] -> batch st = []) ->
    index_loop fs args indexer n i files st w = (inr st', w') ->
    exists (calls : list EngineCall) (out : list str),
      trace w' = (trace w ++ calls)%list
      /\ List.concat (batches_of calls) = (batch st ++ readable fs files)%list
      /\ List.length (batches_of calls) = List.length calls
      /\ List.length (stats_of calls) = List.length calls
      /\ total_entities st' = (total_entities st + sum_entities (stats_of calls))%Z
      /\ total_relationships st'
         = (total_relationships st + sum_relationships (stats_of calls))%Z
      /\ stdout w' = (stdout w ++ out)%list
      /\ (forall path, In path files -> incl (skip_line fs path) out).
Proof.
  induction files as [|path rest IH]; intros i st w st' w' Hi Hlast Hrun.
  - simpl in Hrun. injection Hrun as <- <-. exists [], []. simpl.
    rewrite (Hlast eq_refl), !app_nil_r, !Z.add_0_r.
    repeat split; auto. intros path [].
  - simpl in Hrun. unfold bind in Hrun.
    destruct (index_step_out n i path st w) as [out2 Hout].
    destruct (index_step_run fs args indexer n i path st w) as [out1 Hstep].
    rewrite Hstep in Hrun, Hout. clear Hstep.
    rewrite <- (after_read_readable path rest (batch st)).
    assert (rest = [] -> i = n) as Hin by (intros ->; simpl in Hi; lia).
    destruct (flushes B n i (after_read fs path (batch st))) eqn:Hf.
    + destruct (engine_index_documents indexer (after_read fs path (batch st)) (ext w))
        as [[e|stats] g']; [destruct rest; discriminate|].
      cbn [snd stdout] in Hout.
      apply IH in Hrun; [| simpl in *; lia | reflexivity].
      destruct Hrun as (calls & out & Htr & Hcat & Hlb & Hls & He & Hr & Hso & Hskip).
      exists (CallIndexDocuments indexer (after_read fs path (batch st)) (inr stats)
                :: calls), (out1 ++ out)%list.
      cbn [batch total_entities total_relationships trace stdout] in *.
      split; [rewrite Htr, <- app_assoc; reflexivity|].
      split; [simpl; rewrite Hcat; reflexivity|].
      split; [simpl; f_equal; exact Hlb|].
      split; [simpl; f_equal; exact Hls|].
      split; [unfold sum_entities in *; simpl; lia|].
      split; [unfold sum_relationships in *; simpl; lia|].
      split; [rewrite Hso, <- app_assoc; reflexivity|].
      intros p [<-|Hp].
      * apply app_inv_head in Hout. rewrite Hout.
        apply incl_appl, incl_appl, incl_refl.
      * apply incl_appr, Hskip, Hp.
    + cbn [snd stdout] in Hout.
      apply IH in Hrun; [| simpl in *; lia |].
      2:{ cbn [batch]. intros Hrest. apply Hin in Hrest. subst i.
          unfold flushes in Hf. rewrite Nat.eqb_refl, orb_true_r in Hf. simpl in Hf.
          destruct (after_read fs path (batch st)); [reflexivity | discriminate]. }
      destruct Hrun as (calls & out & Htr & Hcat & Hlb & Hls & He & Hr & Hso & Hskip).
      exists calls, (out1 ++ out)%list.
      cbn [batch total_entities total_relationships trace stdout] in *.
      split; [exact Htr|]. split; [exact Hcat|]. split; [exact Hlb|].
      split; [exact Hls|]. split; [exact He|]. split; [exact Hr|].
      split; [rewrite Hso, <- app_assoc; reflexivity|].
      intros p [<-|Hp].
      * apply app_inv_head in Hout. rewrite Hout.
        apply incl_appl, incl_appl, incl_refl.
      * apply incl_appr, Hskip, Hp.
Qed.

(** A loop that an exception ends: the exception is the one the engine
    raised in the last call made; the calls before it were answered; what
    was handed over, that last batch included, is a beginning of the
    documents held and read. *)
Lemma index_loop_failure (n : nat) (files : list str) :
  forall (i : nat) (st : Totals) (w : GW G) (b : BaseException) (w' : GW G),
    index_loop fs args indexer n i files st w = (inl b, w') ->
    exists (e : Exception) (calls : list EngineCall) (docs rest : list str),
      b = Exc e
      /\ trace w' = (trace w ++ calls ++ [CallIndexDocuments indexer docs (inl e)])%list
      /\ List.length (batches_of calls) = List.length calls
      /\ List.length (stats_of calls) = List.length calls
      /\ (batch st ++ readable fs files)%list
         = (List.concat (batches_of calls) ++ docs ++ rest)%list.
Proof.
  induction files as [|path rest IH]; intros i st w b w' Hrun.
  - discriminate.
  - simpl in Hrun. unfold bind in Hrun.
    destruct (index_step_run fs args indexer n i path st w) as [out1 Hstep].
    rewrite Hstep in Hrun. clear Hstep.
    rewrite <- (after_read_readable path rest (batch st)).
    destruct (flushes B n i (after_read fs path (batch st))).
    + destruct (engine_index_documents indexer (after_read fs path (batch st)) (ext w))
        as [[e|stats] g'].
      * injection Hrun as <- <-.
        exists e, [], (after_read fs path (batch st)), (readable fs rest).
        simpl. auto.
      * apply IH in Hrun.
        destruct Hrun as (e & calls & docs & rest' & -> & Htr & Hlb & Hls & Hcat).
        exists e,
          (CallIndexDocuments indexer (after_read fs path (batch st)) (inr stats) :: calls),
          docs, rest'.
        cbn [batch trace] in *.
        split; [reflexivity|].
        split; [rewrite Htr, <- app_assoc; reflexivity|].
        split; [simpl; f_equal; exact Hlb|].
        split; [simpl; f_equal; exact Hls|].
        simpl in *. rewrite <- app_assoc, <- Hcat. reflexivity.
    + apply IH in Hrun.
      destruct Hrun as (e & calls & docs & rest' & -> & Htr & Hlb & Hls & Hcat).
      exists e, calls, docs, rest'. cbn [batch trace] in *. auto.
Qed.

(** The pipeline that returns, whatever the batch size. *)
Lemma run_pipeline_returns (md_files : list str) (w : GW G) (st : Totals) (w' : GW G) :
  run_pipeline fs args indexer md_files w = (inr st, w') ->
  exists (calls : list EngineCall) (out : list str),
    trace w' = (trace w ++ calls)%list
    /\ List.concat (batches_of calls) = readable fs md_files
    /\ List.length (batches_of calls) = List.length calls
    /\ List.length (stats_of calls) = List.length calls
    /\ total_entities st = sum_entities (stats_of calls)
    /\ total_relationships st = sum_relationships (stats_of calls)
    /\ stdout w' = (stdout w ++ out)%list
    /\ (forall path, In path md_files -> incl (skip_line fs path) out).
Proof.
  intros Hrun. rewrite run_pipeline_run in Hrun.
  destruct (index_loop fs args indexer (List.length md_files) 1 md_files _ w)
    as [[e|st1] w1] eqn:Hloop; [discriminate|].
  injection Hrun as <- <-.
  apply index_loop_conserves in Hloop; [| simpl; lia | intros _; reflexivity].
  destruct Hloop as (calls & out & Htr & Hcat & Hlb & Hls & He & Hr & Hso & Hskip).
  cbn [batch total_entities total_relationships trace stdout app] in *.
  rewrite Z.add_0_l in He, Hr.
  eexists calls, (out ++ _)%list.
  split; [exact Htr|]. split; [exact Hcat|]. split; [exact Hlb|]. split; [exact Hls|].
  split; [exact He|]. split; [exact Hr|].
  split; [rewrite Hso, <- app_assoc; reflexivity|].
  intros path Hp. apply incl_appl, Hskip, Hp.
Qed.

(** The pipeline that an exception ends. *)
Lemma run_pipeline_raises (md_files : list str) (w : GW G)
      (b : BaseException) (w' : GW G) :
  run_pipeline fs args indexer md_files w = (inl b, w') ->
  exists (e : Exception) (calls : list EngineCall) (docs rest : list str),
    b = Exc e
    /\ trace w' = (trace w ++ calls ++ [CallIndexDocuments indexer docs (inl e)])%list
    /\ List.length (batches_of calls) = List.length calls
    /\ List.length (stats_of calls) = List.length calls
    /\ readable fs md_files = (List.concat (batches_of calls) ++ docs ++ rest)%list.
Proof.
  intros Hrun. rewrite run_pipeline_run in Hrun.
  destruct (index_loop fs args indexer (List.length md_files) 1 md_files _ w)
    as [[e|st1] w1] eqn:Hloop; [|discriminate].
  injection Hrun as <- <-.
  apply index_loop_failure in Hloop. exact Hloop.
Qed.

(** X4: whatever the batch size (also zero or negative), a pipeline run
    that returns has handed every readable document to the engine exactly
    once and in the order of the files: the batches of its calls, put end
    to end, are the readable documents.  Every call was answered and the
    totals are the sums of the answers. *)
Theorem pipeline_delivers_each_document_once
        (md_files : list str) (w : GW G) (st : Totals) (w' : GW G) :
  run_pipeline fs args indexer md_files w = (inr st, w') ->
  exists calls : list EngineCall,
    trace w' = (trace w ++ calls)%list
    /\ List.concat (batches_of calls) = readable fs md_files
    /\ List.length (batches_of calls) = List.length calls
    /\ List.length (stats_of calls) = List.length calls
    /\ total_entities st = sum_entities (stats_of calls)
    /\ total_relationships st = sum_relationships (stats_of calls).
Proof.
  intros Hrun.
  destruct (run_pipeline_returns md_files w st w' Hrun)
    as (calls & out & Htr & Hcat & Hlb & Hls & He & Hr & _).
  exists calls. auto 10.
Qed.

(** X5: a pipeline run that returns has printed, for every file it could
    not read, the line [  Skipped NAME: ERROR] with the name of the file and
    the text of the exception. *)
Theorem pipeline_reports_skipped_files
        (md_files : list str) (w : GW G) (st : Totals) (w' : GW G)
        (path : str) (e : Exception) :
  run_pipeline fs args indexer md_files w = (inr st, w') ->
  In path md_files ->
  read_text fs path = inl e ->
  In ("  Skipped " ++ name fs path ++ ": " ++ str_of_exception e) (stdout w').
Proof.
  intros Hrun Hin Hread.
  destruct (run_pipeline_returns md_files w st w' Hrun)
    as (calls & out & _ & _ & _ & _ & _ & _ & Hso & Hskip).
  rewrite Hso. apply in_or_app. right.
  apply (Hskip path Hin). unfold skip_line. rewrite Hread. left. reflexivity.
Qed.

(** X6: an exception of the engine ends the pipeline at once and reaches
    the caller as it is.  The call that raised is the last call in the
    trace, every call before it was answered, and what the engine was
    handed, the failed batch included, is a beginning of the readable
    documents: nothing is retried and nothing later is sent. *)
Theorem pipeline_stops_at_engine_failure
        (md_files : list str) (w : GW G) (b : BaseException) (w' : GW G) :
  run_pipeline fs args indexer md_files w = (inl b, w') ->
  exists (e : Exception) (calls : list EngineCall) (docs rest : list str),
    b = Exc e
    /\ trace w' = (trace w ++ calls ++ [CallIndexDocuments indexer docs (inl e)])%list
    /\ List.length (stats_of calls) = List.length calls
    /\ readable fs md_files = (List.concat (batches_of calls) ++ docs ++ rest)%list.
Proof.
  intros Hrun.
  destruct (run_pipeline_raises md_files w b w' Hrun)
    as (e & calls & docs & rest & Hb & Htr & _ & Hls & Hcat).
  exists e, calls, docs, rest. auto.
Qed.

(** X7: with a batch size of one or less (zero and negative sizes are
    accepted by the command line), a pipeline run that returns has handed
    over every readable document in a call of its own. *)
Theorem pipeline_small_batch_size
        (md_files : list str) (w : GW G) (st : Totals) (w' : GW G) :
  (arg_batch_size args <= 1)%Z ->
  run_pipeline fs args indexer md_files w = (inr st, w') ->
  exists calls : list EngineCall,
    trace w' = (trace w ++ calls)%list
    /\ batches_of calls = map (fun d => [d]) (readable fs md_files).
Proof.
  intros HB Hrun.
  destruct (run_pipeline_returns md_files w st w' Hrun)
    as (calls & out & Htr & Hcat & _).
  destruct (run_pipeline_bounded fs args indexer md_files w)
    as (calls' & Htr' & _ & Hall).
  rewrite Hrun in Htr'. cbn [snd] in Htr'. rewrite Htr in Htr'.
  apply app_inv_head in Htr'. subst calls'.
  exists calls. split; [exact Htr|]. rewrite <- Hcat.
  apply singletons_of_concat.
  eapply Forall_impl; [|exact Hall].
  intros docs [Hlo Hhi]. simpl in Hhi. lia.
Qed.



End PipelineMore.

(* ================================================================== *)
(** ** More on the CLI *)
(* ================================================================== *)

Lemma failures_of_app (a b : list EngineCall) :
  failures_of (a ++ b) = (failures_of a ++ failures_of b)%list.
Proof.
  induction a as [|[? [?|?]|? ? [?|?]|? ? ? [?|?]] a IH]; simpl; rewrite ?IH; reflexivity.
Qed.

Lemma stats_of_le (calls : list EngineCall) :
  List.length (stats_of calls) <= List.length calls.
Proof.
  induction calls as [|[? ?|? ? [?|?]|? ? ? ?] calls IH]; simpl; lia.
Qed.

(** A trace of answered indexing calls holds no failure. *)
Lemma answered_no_failures (calls : list EngineCall) :
  List.length (stats_of calls) = List.length calls -> failures_of calls = [].
Proof.
  induction calls as [|[? ?|? ? [?|?]|? ? ? ?] calls IH]; simpl; intros Hlen;
    try (pose proof (stats_of_le calls); lia).
  - reflexivity.
  - apply IH. lia.
Qed.

Section MainMore.

Import IndexDocs.
Context {G : Type} `{Engine G}.
Variable fs : FileSystem.
Variable environ : Environ.
Variable args : Args.

(** X9: [main] never swallows an exception of the engine.  When a call
    to the engine (the construction of the indexer or an indexing call)
    raises, it is the only failed call of the run, its exception reaches
    the top of [main] as it is, and the exit status is 1. *)
Theorem main_exit_status_on_failure (w : GW G) :
  exists calls : list EngineCall,
    trace (snd (main fs environ args w)) = (trace w ++ calls)%list
    /\ (forall e, In e (failures_of calls) ->
                  failures_of calls = [e]
                  /\ fst (main fs environ args w) = inl (Exc e)
                  /\ fst (exit_status (main fs environ args) w) = 1%Z).
Proof.
  unfold exit_status. rewrite main_run. cbv zeta.
  destruct (exists_ fs (resolve fs (arg_dir args)));
    [|exists []; cbn; rewrite app_nil_r; split; [reflexivity|]; intros e []].
  destruct (nonempty (sorted_rglob_md fs (resolve fs (arg_dir args))));
    [|exists []; cbn; rewrite app_nil_r; split; [reflexivity|]; intros e []].
  destruct (remote_requested args && negb (credential_present environ));
    [exists []; cbn; rewrite app_nil_r; split; [reflexivity|]; intros e []|].
  cbn [negb].
  match goal with |- context [new_indexer ?c ?w1] => set (cfg := c); set (w1' := w1) end.
  unfold new_indexer.
  destruct (engine_new cfg (ext w1')) as [[e|[]] g']; cbn [lift_result].
  - exists [CallNew cfg (inl e)]. cbn. split; [reflexivity|].
    intros e' [<-|[]]. auto.
  - match goal with |- context [run_pipeline fs args cfg ?md ?w2] =>
      destruct (run_pipeline fs args cfg md w2) as [[b|st] w3] eqn:Hrun
    end.
    + destruct (run_pipeline_raises fs args cfg _ _ b w3 Hrun)
        as (e & calls & docs & rest & -> & Htr & _ & Hls & _).
      exists (CallNew cfg (inr tt) :: calls ++ [CallIndexDocuments cfg docs (inl e)]).
      cbn [fst snd trace] in *. rewrite Htr. cbn [trace w1'].
      split; [rewrite <- app_assoc; reflexivity|].
      cbn [failures_of]. rewrite failures_of_app, (answered_no_failures _ Hls).
      cbn. intros e' [<-|[]]. auto.
    + destruct (run_pipeline_returns fs args cfg _ _ st w3 Hrun)
        as (calls & out & Htr & _ & _ & Hls & _).
      exists (CallNew cfg (inr tt) :: calls).
      cbn [fst snd trace] in *. rewrite Htr. cbn [trace w1'].
      split; [rewrite <- app_assoc; reflexivity|].
      cbn [failures_of]. rewrite (answered_no_failures _ Hls). intros e [].
Qed.

(** The components [main] selects once the credential check is passed. *)
Lemma main_indexer_ok :
  remote_requested args && negb (credential_present environ) = false ->
  let api_key :=
    if remote_requested args then environ_get environ "OPENAI_API_KEY" else None in
  extractor_ok environ args (extractor (main_indexer args api_key))
  /\ embedder_ok environ args (embedder (main_indexer args api_key)).
Proof.
  unfold remote_requested, credential_present, main_indexer, select_backend,
    extractor_ok, embedder_ok.
  destruct (arg_openai args), (arg_openai_embed args); cbn;
    try (destruct (environ_get environ "OPENAI_API_KEY") as [k|]; cbn;
         [destruct (truthy k) eqn:Hk; cbn; [intros _|discriminate] | discriminate]);
    try intros _; repeat split; eauto 10.
Qed.

(** X10: the CLI never constructs a remote component without a credential.
    In any run it constructs at most one indexer, for the session, host and
    port of the command line; each OpenAI component of it holds the
    non-empty [OPENAI_API_KEY] of the environment, and each Ollama
    component holds the key [ollama] and the Ollama URL of the command
    line. *)
Theorem main_constructs_wellformed_backend (w : GW G) :
  exists calls : list EngineCall,
    trace (snd (main fs environ args w)) = (trace w ++ calls)%list
    /\ List.length (news_of calls) <= 1
    /\ Forall (fun idx : GibRAMIndexer =>
                 session_id idx = arg_session_id args
                 /\ host idx = arg_host args
                 /\ port idx = arg_port args
                 /\ extractor_ok environ args (extractor idx)
                 /\ embedder_ok environ args (embedder idx))
              (news_of calls).
Proof.
  rewrite main_run. cbv zeta.
  destruct (exists_ fs (resolve fs (arg_dir args)));
    [|exists []; cbn; rewrite app_nil_r; auto].
  destruct (nonempty (sorted_rglob_md fs (resolve fs (arg_dir args))));
    [|exists []; cbn; rewrite app_nil_r; auto].
  destruct (remote_requested args && negb (credential_present environ)) eqn:Hcheck;
    [exists []; cbn; rewrite app_nil_r; auto|].
  cbn [negb].
  pose proof (main_indexer_ok Hcheck) as [Hex Hem]. cbv zeta in Hex, Hem.
  match goal with |- context [new_indexer ?c ?w1] => set (cfg := c) in *; set (w1' := w1) end.
  assert (session_id cfg = arg_session_id args /\ host cfg = arg_host args
          /\ port cfg = arg_port args) as Hcfg.
  { unfold cfg, main_indexer.
    destruct (select_backend args _) as [[x y] z]. auto. }
  unfold new_indexer.
  destruct (engine_new cfg (ext w1')) as [[e|[]] g']; cbn [lift_result].
  - exists [CallNew cfg (inl e)]. cbn. split; [reflexivity|]. split; [lia|].
    constructor; [|constructor]. tauto.
  - match goal with |- context [run_pipeline fs args cfg ?md ?w2] =>
      destruct (run_pipeline_bounded fs args cfg md w2) as (calls & Htr & Hlb & _);
      destruct (run_pipeline fs args cfg md w2) as [[b|st] w3]
    end;
      exists (CallNew cfg (inr tt) :: calls); cbn [fst snd trace] in *;
      rewrite Htr; cbn [trace w1' news_of]; rewrite (news_of_batches _ Hlb);
      (split; [rewrite <- app_assoc; reflexivity|]); (split; [simpl; lia|]);
      (constructor; [tauto | constructor]).
Qed.

End MainMore.

Section MainOptions.

Import IndexDocs.
Context {G : Type} `{Engine G}.
Variable fs : FileSystem.
Variable environ : Environ.

(** The loop looks at the batch size only. *)
Lemma index_loop_same_batch_size (args args' : Args) (indexer : GibRAMIndexer)
      (n : nat) (files : list str) :
  arg_batch_size args = arg_batch_size args' ->
  forall (i : nat) (st : Totals) (w : GW G),
    index_loop fs args indexer n i files st w = index_loop fs args' indexer n i files st w.
Proof.
  intros Hb. induction files as [|path rest IH]; intros i st w; [reflexivity|].
  simpl. unfold bind.
  replace (index_step fs args' indexer n i path st w)
    with (index_step fs args indexer n i path st w)
    by (unfold index_step; rewrite Hb; reflexivity).
  destruct (index_step fs args indexer n i path st w) as [[e|st1] w1];
    [reflexivity | apply IH].
Qed.

Lemma run_pipeline_same_options (args args' : Args) (indexer : GibRAMIndexer)
      (md_files : list str) (w : GW G) :
  arg_batch_size args = arg_batch_size args' ->
  arg_session_id args = arg_session_id args' ->
  run_pipeline fs args indexer md_files w = run_pipeline fs args' indexer md_files w.
Proof.
  intros Hb Hs. rewrite !run_pipeline_run.
  rewrite (index_loop_same_batch_size args args' indexer _ md_files Hb), Hs.
  reflexivity.
Qed.

(** X11: with [--openai] the CLI ignores [--openai-embed] and every Ollama
    option.  Two command lines that both carry [--openai] and agree on the
    directory, the session, the host, the port and the batch size run
    alike, whatever their [--openai-embed], [--ollama-url],
    [--extractor-model] and [--embedder-model]. *)
Theorem main_openai_ignores_local_options (args args' : Args) (w : GW G) :
  arg_openai args = true ->
  arg_openai args' = true ->
  arg_dir args = arg_dir args' ->
  arg_session_id args = arg_session_id args' ->
  arg_host args = arg_host args' ->
  arg_port args = arg_port args' ->
  arg_batch_size args = arg_batch_size args' ->
  main fs environ args w = main fs environ args' w.
Proof.
  intros Ho Ho' Hd Hs Hh Hp Hb. rewrite !main_run. cbv zeta.
  unfold remote_requested, banner, main_indexer, select_backend.
  rewrite Ho, Ho', Hd, Hs, Hh, Hp. cbn [orb].
  destruct (exists_ fs (resolve fs (arg_dir args'))); [|reflexivity].
  destruct (nonempty (sorted_rglob_md fs (resolve fs (arg_dir args')))); [|reflexivity].
  destruct (negb (credential_present environ)); [reflexivity|].
  cbn [andb negb].
  match goal with |- context [new_indexer ?c ?w1] =>
    destruct (new_indexer c w1) as [[e|indexer] w2] end; [reflexivity|].
  rewrite (run_pipeline_same_options args args' indexer _ w2 Hb Hs). reflexivity.
Qed.

End MainOptions.

(* ================================================================== *)
(** ** More on the tool facade *)
(* ================================================================== *)

Lemma readable_unreadable_length (fs : FileSystem) (files : list str) :
  List.length (readable fs files) + unreadable fs files = List.length files.
Proof.
  induction files as [|p rest IH]; simpl; [reflexivity|].
  destruct (read_text fs p); simpl; lia.
Qed.

Lemma entity_blocks_length (format_3f : float -> str) (es : list Entity) :
  forall i, List.length (entity_blocks format_3f i es)
            = List.length es + count_described es.
Proof.
  induction es as [|e rest IH]; intros i; simpl; [reflexivity|].
  rewrite length_app, IH. unfold entity_block, described.
  destruct (description e) as [d|]; [destruct (truthy d)|]; simpl; lia.
Qed.

(** The entity at position [k] is numbered [i + k] when the first is
    numbered [i]. *)
Lemma entity_blocks_numbered (format_3f : float -> str) (es : list Entity) :
  forall i k e,
    nth_error es k = Some e ->
    In (str_of_nat (i + k) ++ ". " ++ title e ++ "  (score: "
        ++ format_3f (score e) ++ ")")
       (entity_blocks format_3f i es).
Proof.
  induction es as [|e rest IH]; intros i k e' Hk.
  - destruct k; discriminate.
  - destruct k as [|k]; simpl in Hk.
    + injection Hk as <-. cbn [entity_blocks entity_block]. left.
      rewrite Nat.add_0_r. reflexivity.
    + cbn [entity_blocks]. apply in_or_app. right.
      replace (i + S k) with (S i + k) by lia. apply IH. exact Hk.
Qed.

Section FacadeMore.

Import McpServer.
Context {G : Type} `{Engine G}.
Variable g : Globals.
Variable fs : FileSystem.
Variable format_3f : float -> str.

Lemma entity_lines_blocks (es : list Entity) :
  forall (i : nat) (lines : list str),
    entity_lines format_3f i es lines = (lines ++ entity_blocks format_3f i es)%list.
Proof.
  induction es as [|e rest IH]; intros i lines; simpl.
  - rewrite app_nil_r. reflexivity.
  - unfold entity_block.
    destruct (description e) as [d|]; [destruct (truthy d)|];
      rewrite IH, <- ?app_assoc; reflexivity.
Qed.

(** [query_docs], case by case on what the engine does. *)
Lemma query_docs_run (query session_id : str) (top_k : Z) (w : GW G) :
  let cfg := facade_indexer g session_id in
  query_docs g format_3f query session_id top_k w =
  match engine_new cfg (ext w) with
  | (inl e, g1) =>
      (inl (Exc e), mkWorld g1 (trace w ++ [CallNew cfg (inl e)]) (stdout w) (stderr w))
  | (inr _, g1) =>
      match engine_query cfg query top_k g1 with
      | (inl e, g2) =>
          (inl (Exc e),
           mkWorld g2 (trace w ++ [CallNew cfg (inr tt); CallQuery cfg query top_k (inl e)])
                   (stdout w) (stderr w))
      | (inr results, g2) =>
          (inr (if negb (nonempty (entities results)) then
                  "No results found for: " ++ repr query
                  ++ " in session " ++ repr session_id
                else
                  join nl (["Query: " ++ query; "Session: " ++ session_id; EmptyString]
                           ++ entity_blocks format_3f 1 (entities results))),
           mkWorld g2
                   (trace w ++ [CallNew cfg (inr tt);
                                CallQuery cfg query top_k (inr results)])
                   (stdout w) (stderr w))
      end
  end.
Proof.
  intros cfg. unfold query_docs, bind. rewrite _indexer_run. fold cfg.
  unfold new_indexer.
  destruct (engine_new cfg (ext w)) as [[e|[]] g1]; cbn [lift_result]; [reflexivity|].
  unfold Gibram.query. cbn [ext trace stdout stderr].
  destruct (engine_query cfg query top_k g1) as [[e|results] g2]; cbn [lift_result].
  - rewrite <- app_assoc. reflexivity.
  - rewrite <- app_assoc. cbn [app].
    destruct (nonempty (entities results)); cbn [negb]; unfold ret;
      [rewrite entity_lines_blocks|]; reflexivity.
Qed.

(** [index_directory] past its two checks, case by case on the engine. *)
Lemma index_directory_engine_run (path session_id : str) (w : GW G) :
  exists_ fs (resolve fs path) = true ->
  sorted_rglob_md fs (resolve fs path) <> [] ->
  let cfg := facade_indexer g session_id in
  let md_files := sorted_rglob_md fs (resolve fs path) in
  let docs := readable fs md_files in
  index_directory g fs path session_id w =
  match engine_new cfg (ext w) with
  | (inl e, g1) =>
      (inl (Exc e), mkWorld g1 (trace w ++ [CallNew cfg (inl e)]) (stdout w) (stderr w))
  | (inr _, g1) =>
      match engine_index_documents cfg docs g1 with
      | (inl e, g2) =>
          (inl (Exc e),
           mkWorld g2 (trace w ++ [CallNew cfg (inr tt);
                                   CallIndexDocuments cfg docs (inl e)])
                   (stdout w) (stderr w))
      | (inr stats, g2) =>
          (inr (summary path session_id (List.length docs) (unreadable fs md_files) stats),
           mkWorld g2 (trace w ++ [CallNew cfg (inr tt);
                                   CallIndexDocuments cfg docs (inr stats)])
                   (stdout w) (stderr w))
      end
  end.
Proof.
  intros Hexists Hfiles cfg md_files docs.
  unfold index_directory. rewrite Hexists, (nonempty_true _ _ Hfiles). cbn [negb].
  unfold bind. rewrite _indexer_run. fold cfg. unfold new_indexer.
  destruct (engine_new cfg (ext w)) as [[e|[]] g1]; cbn [lift_result]; [reflexivity|].
  rewrite read_all_run. cbn [app]. fold md_files. fold docs.
  unfold index_documents. cbn [ext trace stdout stderr].
  destruct (engine_index_documents cfg docs g1) as [[e|stats] g2]; cbn [lift_result].
  - rewrite <- app_assoc. reflexivity.
  - rewrite <- app_assoc. unfold ret, summary. cbn [app Nat.add].
    destruct (Nat.eqb (unreadable fs md_files) 0); reflexivity.
Qed.

(** [index_directory] either stops at a check with a text, or goes on to
    the engine. *)
Lemma index_directory_reaches_engine_cases (path session_id : str) (w : GW G) :
  (exists text, index_directory g fs path session_id w = (inr text, w))
  \/ index_directory g fs path session_id w
     = (let cfg := facade_indexer g session_id in
        let md_files := sorted_rglob_md fs (resolve fs path) in
        let docs := readable fs md_files in
        match engine_new cfg (ext w) with
        | (inl e, g1) =>
            (inl (Exc e),
             mkWorld g1 (trace w ++ [CallNew cfg (inl e)]) (stdout w) (stderr w))
        | (inr _, g1) =>
            match engine_index_documents cfg docs g1 with
            | (inl e, g2) =>
                (inl (Exc e),
                 mkWorld g2 (trace w ++ [CallNew cfg (inr tt);
                                         CallIndexDocuments cfg docs (inl e)])
                         (stdout w) (stderr w))
            | (inr stats, g2) =>
                (inr (summary path session_id (List.length docs)
                              (unreadable fs md_files) stats),
                 mkWorld g2 (trace w ++ [CallNew cfg (inr tt);
                                         CallIndexDocuments cfg docs (inr stats)])
                         (stdout w) (stderr w))
            end
        end).
Proof.
  destruct (exists_ fs (resolve fs path)) eqn:Hexists.
  - destruct (sorted_rglob_md fs (resolve fs path)) as [|p rest] eqn:Hmd.
    + left. eexists. unfold index_directory. rewrite Hexists, Hmd. reflexivity.
    + right. rewrite <- Hmd. apply index_directory_engine_run; [exact Hexists|].
      rewrite Hmd. discriminate.
  - left. eexists. unfold index_directory. rewrite Hexists. reflexivity.
Qed.

(** X12: [index_directory] reaches the engine only for a directory that
    exists and holds a markdown file.  When the directory the path resolves
    to does not exist, it returns the text
    [Error: Directory not found: PATH]; when that directory exists and
    holds no markdown file, it returns [No markdown files found in PATH];
    in both cases with the path as it was given, without raising and
    without a call to the engine.  When the directory exists and holds a
    markdown file, the construction of the indexer is asked of the
    engine. *)
Theorem index_directory_checks_before_engine (path session_id : str) (w : GW G) :
  let docs_dir := resolve fs path in
  let md_files := sorted_rglob_md fs docs_dir in
  (exists_ fs docs_dir = false ->
   index_directory g fs path session_id w
   = (inr ("Error: Directory not found: " ++ path), w))
  /\ (exists_ fs docs_dir = true -> md_files = [] ->
      index_directory g fs path session_id w
      = (inr ("No markdown files found in " ++ path), w))
  /\ (exists_ fs docs_dir = true -> md_files <> [] ->
      exists r calls,
        trace (snd (index_directory g fs path session_id w))
        = (trace w ++ CallNew (facade_indexer g session_id) r :: calls)%list).
Proof.
  intros docs_dir md_files. split; [|split].
  - intros Hno. unfold index_directory. fold docs_dir. rewrite Hno. reflexivity.
  - intros Hyes Hmd. unfold index_directory. fold docs_dir. rewrite Hyes.
    fold md_files. rewrite Hmd. reflexivity.
  - intros Hyes Hfiles.
    rewrite (index_directory_engine_run path session_id w Hyes Hfiles). cbv zeta.
    destruct (engine_new (facade_indexer g session_id) (ext w)) as [[e|u] g1].
    + exists (inl e), []. reflexivity.
    + destruct (engine_index_documents (facade_indexer g session_id) _ g1)
        as [[e|stats] g2]; destruct u; eexists (inr tt), [_]; reflexivity.
Qed.

(** X13: the summary of [index_directory] accounts for every file.  When
    the engine answers, the text returned reports [K] files indexed, [K]
    being the number of files that could be read, and a line on [S] files
    skipped exactly when [S > 0], [S] being the number of files that could
    not; [K + S] is the number of markdown files of the directory. *)
Theorem index_directory_summary (path session_id : str) (w : GW G)
        (g1 g2 : G) (stats : IndexStats) :
  let cfg := facade_indexer g session_id in
  let md_files := sorted_rglob_md fs (resolve fs path) in
  exists_ fs (resolve fs path) = true ->
  md_files <> [] ->
  engine_new cfg (ext w) = (inr tt, g1) ->
  engine_index_documents cfg (readable fs md_files) g1 = (inr stats, g2) ->
  fst (index_directory g fs path session_id w)
  = inr (join nl
           (["Indexed " ++ str_of_nat (List.length (readable fs md_files))
               ++ " files from " ++ path;
             "Session:       " ++ session_id;
             "Entities:      " ++ str_of_Z (entities_extracted stats);
             "Relationships: " ++ str_of_Z (relationships_extracted stats)]
            ++ (if Nat.eqb (unreadable fs md_files) 0 then []
                else ["Skipped:       " ++ str_of_nat (unreadable fs md_files)
                        ++ " unreadable files"])))
  /\ List.length (readable fs md_files) + unreadable fs md_files = List.length md_files.
Proof.
  intros cfg md_files Hexists Hfiles Hnew Hidx.
  rewrite (index_directory_engine_run path session_id w Hexists Hfiles).
  fold cfg. fold md_files. rewrite Hnew, Hidx. cbn [fst].
  split; [reflexivity | apply readable_unreadable_length].
Qed.

(** X14: unlike the CLI, the facade calls the engine also when it has
    nothing to index: when none of the markdown files can be read,
    [index_directory] hands [index_documents] the empty list. *)
Theorem index_directory_unreadable_corpus (path session_id : str) (w : GW G) (g1 : G) :
  let cfg := facade_indexer g session_id in
  let md_files := sorted_rglob_md fs (resolve fs path) in
  exists_ fs (resolve fs path) = true ->
  md_files <> [] ->
  readable fs md_files = [] ->
  engine_new cfg (ext w) = (inr tt, g1) ->
  trace (snd (index_directory g fs path session_id w))
  = (trace w ++ [CallNew cfg (inr tt);
                 CallIndexDocuments cfg [] (fst (engine_index_documents cfg [] g1))])%list.
Proof.
  intros cfg md_files Hexists Hfiles Hnone Hnew.
  rewrite (index_directory_engine_run path session_id w Hexists Hfiles).
  fold cfg. fold md_files. rewrite Hnew, Hnone.
  destruct (engine_index_documents cfg [] g1) as [[e|stats] g2]; reflexivity.
Qed.

(** X15: [query_docs] raises exactly when the engine does, and raises the
    engine's exception: it catches nothing and adds no error of its own.
    After a failed construction of the indexer no retrieval is asked for. *)
Theorem query_docs_raises_iff_engine_raises
        (query session_id : str) (top_k : Z) (w : GW G) :
  exists calls : list EngineCall,
    trace (snd (query_docs g format_3f query session_id top_k w)) = (trace w ++ calls)%list
    /\ (forall b, fst (query_docs g format_3f query session_id top_k w) = inl b
                  <-> exists e, b = Exc e /\ failures_of calls = [e])
    /\ (forall idx e, In (CallNew idx (inl e)) calls -> calls = [CallNew idx (inl e)])
    /\ List.length calls <= 2.
Proof.
  rewrite query_docs_run. cbv zeta.
  destruct (engine_new (facade_indexer g session_id) (ext w)) as [[e|u] g1].
  - eexists [_]. cbn [fst snd trace]. split; [reflexivity|]. split; [|split].
    + intros b. split.
      * intros [= <-]. exists e. auto.
      * intros (e' & -> & [= <-]). reflexivity.
    + intros idx e' [[= <- <-]|[]]. reflexivity.
    + simpl; lia.
  - destruct (engine_query (facade_indexer g session_id) query top_k g1)
      as [[e|results] g2].
    + eexists [_; _]. cbn [fst snd trace]. split; [reflexivity|]. split; [|split].
      * intros b. split.
        -- intros [= <-]. exists e. auto.
        -- intros (e' & -> & [= <-]). reflexivity.
      * intros idx e' [Hx|[Hx|[]]]; discriminate.
      * simpl; lia.
    + eexists [_; _]. cbn [fst snd trace]. split; [reflexivity|]. split; [|split].
      * intros b. split; [discriminate | intros (e' & _ & [=])].
      * intros idx e' [Hx|[Hx|[]]]; discriminate.
      * simpl; lia.
Qed.

(** X16: [index_directory] never swallows an exception of the engine.
    When a call to the engine (the construction of the indexer or the
    indexing call) raises, it is the only failed call, [index_directory]
    raises that exception as it is, and after a failed construction no
    indexing is asked for.  The engine is called at most twice. *)
Theorem index_directory_propagates_engine_failure (path session_id : str) (w : GW G) :
  exists calls : list EngineCall,
    trace (snd (index_directory g fs path session_id w)) = (trace w ++ calls)%list
    /\ (forall e, In e (failures_of calls) ->
                  failures_of calls = [e]
                  /\ fst (index_directory g fs path session_id w) = inl (Exc e))
    /\ (forall idx e, In (CallNew idx (inl e)) calls -> calls = [CallNew idx (inl e)])
    /\ List.length calls <= 2.
Proof.
  destruct (index_directory_reaches_engine_cases path session_id w)
    as [(text & Hrun) | Hrun].
  - rewrite Hrun. exists []. cbn [fst snd]. rewrite app_nil_r.
    split; [reflexivity|]. split; [intros e []|]. split; [intros idx e []|simpl; lia].
  - rewrite Hrun. cbv zeta.
    destruct (engine_new (facade_indexer g session_id) (ext w)) as [[e|u] g1].
    + eexists [_]. cbn [fst snd trace]. split; [reflexivity|].
      split; [|split; [|simpl; lia]].
      * intros e' [<-|[]]. auto.
      * intros idx e' [[= <- <-]|[]]. reflexivity.
    + destruct (engine_index_documents (facade_indexer g session_id) _ g1)
        as [[e|stats] g2].
      * eexists [_; _]. cbn [fst snd trace]. split; [reflexivity|].
        split; [|split; [|simpl; lia]].
        -- intros e' [<-|[]]. auto.
        -- intros idx e' [Hx|[Hx|[]]]; discriminate.
      * eexists [_; _]. cbn [fst snd trace]. split; [reflexivity|].
        split; [|split; [|simpl; lia]].
        -- intros e' [].
        -- intros idx e' [Hx|[Hx|[]]]; discriminate.
Qed.

(** X17: the text [query_docs] returns for a retrieval with entities.  It
    starts with the query and the session identifier as they were given
    (here, unlike in the text on no results, without quotes or escapes) and
    an empty line; then every entity follows in the order of the ranking,
    numbered from 1, with its title and score on one line and, when it has
    a non-empty description, the description on a line of its own. *)
Theorem query_docs_results_text (query session_id : str) (top_k : Z) (w : GW G)
        (g1 g2 : G) (results : QueryResult) :
  let cfg := facade_indexer g session_id in
  engine_new cfg (ext w) = (inr tt, g1) ->
  engine_query cfg query top_k g1 = (inr results, g2) ->
  entities results <> [] ->
  exists lines : list str,
    fst (query_docs g format_3f query session_id top_k w)
    = inr ("Query: " ++ query ++ nl ++ "Session: " ++ session_id ++ nl ++ nl
           ++ join nl lines)
    /\ lines = entity_blocks format_3f 1 (entities results)
    /\ List.length lines
       = List.length (entities results) + count_described (entities results)
    /\ (forall k e, nth_error (entities results) k = Some e ->
                    In (str_of_nat (S k) ++ ". " ++ title e ++ "  (score: "
                        ++ format_3f (score e) ++ ")") lines).
Proof.
  intros cfg Hnew Hquery Hsome.
  rewrite query_docs_run. fold cfg. rewrite Hnew, Hquery. cbn [fst].
  rewrite (nonempty_true _ _ Hsome). cbn [negb app].
  exists (entity_blocks format_3f 1 (entities results)).
  split; [|split; [reflexivity|split]].
  - destruct (entities results) as [|e rest]; [contradiction|].
    cbn [entity_blocks entity_block app join String.concat]. reflexivity.
  - apply entity_blocks_length.
  - intros k e Hk. exact (entity_blocks_numbered format_3f _ 1 k e Hk).
Qed.

End FacadeMore.

(* ================================================================== *)
(** ** The backends of the two entry points *)
(* ================================================================== *)

Section Backends.

Context {G : Type} `{Engine G}.
Variable fs : FileSystem.

(** The indexers [main] constructs in a run: none, or the one of its
    command line. *)
Lemma main_news (environ : Environ) (args : IndexDocs.Args) (w : GW G) :
  exists calls : list EngineCall,
    trace (snd (IndexDocs.main fs environ args w)) = (trace w ++ calls)%list
    /\ (news_of calls = []
        \/ news_of calls
           = [main_indexer args (if remote_requested args
                                 then environ_get environ "OPENAI_API_KEY" else None)]).
Proof.
  rewrite main_run. cbv zeta.
  destruct (exists_ fs (resolve fs (IndexDocs.arg_dir args)));
    [|exists []; cbn; rewrite app_nil_r; auto].
  destruct (nonempty (sorted_rglob_md fs (resolve fs (IndexDocs.arg_dir args))));
    [|exists []; cbn; rewrite app_nil_r; auto].
  destruct (remote_requested args && negb (credential_present environ));
    [exists []; cbn; rewrite app_nil_r; auto|].
  cbn [negb].
  match goal with |- context [new_indexer ?c ?w1] => set (cfg := c) in *; set (w1' := w1) end.
  unfold new_indexer.
  destruct (engine_new cfg (ext w1')) as [[e|[]] g']; cbn [lift_result].
  - exists [CallNew cfg (inl e)]. cbn. auto.
  - match goal with |- context [IndexDocs.run_pipeline fs args cfg ?md ?w2] =>
      destruct (run_pipeline_bounded fs args cfg md w2) as (calls & Htr & Hlb & _);
      destruct (IndexDocs.run_pipeline fs args cfg md w2) as [[b|st] w3]
    end;
      exists (CallNew cfg (inr tt) :: calls); cbn [fst snd trace] in *;
      rewrite Htr; cbn [trace w1' news_of]; rewrite (news_of_batches _ Hlb);
      (split; [rewrite <- app_assoc; reflexivity | right; reflexivity]).
Qed.

(** X18: the backend matrix of the CLI.  Whatever indexer a run
    constructs, its extractor is the OpenAI one (model [gpt-4o]) exactly
    with [--openai] and the Ollama one of [--extractor-model] otherwise; its
    embedder is the OpenAI one (model [text-embedding-3-small]) with
    [--openai] or [--openai-embed], and otherwise the [OllamaEmbedder] of
    [--embedder-model], the class whose [embed] truncates and falls back. *)
Theorem main_backend_matrix (environ : Environ) (args : IndexDocs.Args) (w : GW G) :
  exists calls : list EngineCall,
    trace (snd (IndexDocs.main fs environ args w)) = (trace w ++ calls)%list
    /\ Forall (fun idx : GibRAMIndexer =>
                 (extractor_class (extractor idx), extractor_model (extractor idx))
                 = (if IndexDocs.arg_openai args
                    then (OpenAIExtractor, "gpt-4o")
                    else (OllamaExtractor, IndexDocs.arg_extractor_model args))
                 /\ (embedder_class (embedder idx), embedder_model (embedder idx))
                    = (if IndexDocs.arg_openai args || IndexDocs.arg_openai_embed args
                       then (OpenAIEmbedder, "text-embedding-3-small")
                       else (OllamaEmbedder, IndexDocs.arg_embedder_model args)))
              (news_of calls).
Proof.
  destruct (main_news environ args w) as (calls & Htr & [Hnone|Hone]).
  - exists calls. rewrite Hnone. auto.
  - exists calls. rewrite Hone. split; [exact Htr|].
    constructor; [|constructor].
    unfold main_indexer, IndexDocs.select_backend, remote_requested.
    destruct (IndexDocs.arg_openai args), (IndexDocs.arg_openai_embed args); cbn; auto.
Qed.

(** X19: the facade never uses the resilient embedder.  Every indexer that
    [query_docs] or [index_directory] constructs, with either backend, has
    an extractor of class [OpenAIExtractor] and an embedder of class
    [OpenAIEmbedder]; with the local backend they are the plain OpenAI
    classes given the key [ollama] and the Ollama URL. *)
Theorem facade_backend_classes (g : McpServer.Globals) (format_3f : float -> str)
        (query path session_id : str) (top_k : Z) (w : GW G) :
  let ok (idx : GibRAMIndexer) :=
    extractor_class (extractor idx) = OpenAIExtractor
    /\ embedder_class (embedder idx) = OpenAIEmbedder
    /\ (McpServer.USE_OPENAI g = false ->
        extractor_api_key (extractor idx) = Some "ollama"
        /\ embedder_api_key (embedder idx) = Some "ollama"
        /\ extractor_base_url (extractor idx) = Some (McpServer.OLLAMA_BASE_URL g)
        /\ embedder_base_url (embedder idx) = Some (McpServer.OLLAMA_BASE_URL g)) in
  (exists calls : list EngineCall,
      trace (snd (McpServer.query_docs g format_3f query session_id top_k w))
      = (trace w ++ calls)%list
      /\ Forall ok (news_of calls))
  /\ (exists calls : list EngineCall,
         trace (snd (McpServer.index_directory g fs path session_id w))
         = (trace w ++ calls)%list
         /\ Forall ok (news_of calls)).
Proof.
  intros ok.
  assert (ok (facade_indexer g session_id)) as Hok.
  { unfold ok, facade_indexer. destruct (McpServer.USE_OPENAI g); cbn.
    - repeat split; discriminate.
    - repeat split; reflexivity. }
  split.
  - rewrite query_docs_run. cbv zeta.
    destruct (engine_new (facade_indexer g session_id) (ext w)) as [[e|u] g1].
    + eexists [_]. cbn [snd trace]. split; [reflexivity|]. cbn. auto.
    + destruct (engine_query (facade_indexer g session_id) query top_k g1)
        as [[e|results] g2];
        eexists [_; _]; cbn [snd trace]; (split; [reflexivity|]); cbn; auto.
  - destruct (index_directory_reaches_engine_cases g fs path session_id w)
      as [(text & Hrun) | Hrun]; rewrite Hrun.
    + exists []. cbn. rewrite app_nil_r. auto.
    + cbv zeta.
      destruct (engine_new (facade_indexer g session_id) (ext w)) as [[e|u] g1].
      * eexists [_]. cbn [snd trace]. split; [reflexivity|]. cbn. auto.
      * destruct (engine_index_documents (facade_indexer g session_id) _ g1)
          as [[e|stats] g2];
          eexists [_; _]; cbn [snd trace]; (split; [reflexivity|]); cbn; auto.
Qed.

(** X20: with the local backend the facade ignores the credential.  When
    the environment selects the local backend, adding an [OPENAI_API_KEY]
    of any value to it changes nothing in what [query_docs] and
    [index_directory] do. *)
Theorem facade_local_ignores_credential
        (py_int : str -> Exception + Z) (environ : Environ) (k : str)
        (g g' : McpServer.Globals) (format_3f : float -> str)
        (query path session_id : str) (top_k : Z) (w : GW G) :
  McpServer.load_globals py_int environ = inr g ->
  McpServer.USE_OPENAI g = false ->
  McpServer.load_globals py_int (("OPENAI_API_KEY", k) :: environ) = inr g' ->
  McpServer.query_docs g' format_3f query session_id top_k w
  = McpServer.query_docs g format_3f query session_id top_k w
  /\ McpServer.index_directory g' fs path session_id w
     = McpServer.index_directory g fs path session_id w.
Proof.
  unfold McpServer.load_globals. unfold environ_get_default at 1 8.
  cbn [environ_get String.eqb Ascii.eqb Bool.eqb].
  fold (environ_get_default environ "GIBRAM_PORT" "6161").
  destruct (py_int (environ_get_default environ "GIBRAM_PORT" "6161")) as [e|p];
    [discriminate|].
  intros [= <-] Hlocal [= <-].
  cbn [McpServer.USE_OPENAI] in Hlocal.
  assert (forall s w0, McpServer._indexer
            {| McpServer.GIBRAM_HOST := environ_get_default (("OPENAI_API_KEY", k) :: environ) "GIBRAM_HOST" "localhost";
               McpServer.GIBRAM_PORT := p;
               McpServer.OLLAMA_BASE_URL := environ_get_default (("OPENAI_API_KEY", k) :: environ) "OLLAMA_BASE_URL" "http://localhost:11434/v1";
               McpServer.EXTRACTOR_MODEL := environ_get_default (("OPENAI_API_KEY", k) :: environ) "GIBRAM_EXTRACTOR_MODEL" "llama3.2";
               McpServer.EMBEDDER_MODEL := environ_get_default (("OPENAI_API_KEY", k) :: environ) "GIBRAM_EMBEDDER_MODEL" "nomic-embed-text";
               McpServer.USE_OPENAI := String.eqb (lower (environ_get_default (("OPENAI_API_KEY", k) :: environ) "GIBRAM_BACKEND" "ollama")) "openai";
               McpServer.OPENAI_API_KEY := environ_get_default (("OPENAI_API_KEY", k) :: environ) "OPENAI_API_KEY" EmptyString |} s w0
          = McpServer._indexer
            {| McpServer.GIBRAM_HOST := environ_get_default environ "GIBRAM_HOST" "localhost";
               McpServer.GIBRAM_PORT := p;
               McpServer.OLLAMA_BASE_URL := environ_get_default environ "OLLAMA_BASE_URL" "http://localhost:11434/v1";
               McpServer.EXTRACTOR_MODEL := environ_get_default environ "GIBRAM_EXTRACTOR_MODEL" "llama3.2";
               McpServer.EMBEDDER_MODEL := environ_get_default environ "GIBRAM_EMBEDDER_MODEL" "nomic-embed-text";
               McpServer.USE_OPENAI := String.eqb (lower (environ_get_default environ "GIBRAM_BACKEND" "ollama")) "openai";
               McpServer.OPENAI_API_KEY := environ_get_default environ "OPENAI_API_KEY" EmptyString |} s w0)
    as Hsame.
  { intros s w0. unfold McpServer._indexer.
    cbn [McpServer.USE_OPENAI McpServer.GIBRAM_HOST McpServer.GIBRAM_PORT
         McpServer.OLLAMA_BASE_URL McpServer.EXTRACTOR_MODEL McpServer.EMBEDDER_MODEL].
    unfold environ_get_default.
    cbn [environ_get String.eqb Ascii.eqb Bool.eqb].
    fold (environ_get_default environ "GIBRAM_BACKEND" "ollama").
    rewrite Hlocal. reflexivity. }
  split.
  - unfold McpServer.query_docs, bind. rewrite Hsame. reflexivity.
  - unfold McpServer.index_directory, bind.
    destruct (negb (exists_ fs (resolve fs path))); [reflexivity|].
    destruct (negb (nonempty (sorted_rglob_md fs (resolve fs path)))); [reflexivity|].
    rewrite Hsame. reflexivity.
Qed.

End Backends.

(* ================================================================== *)
(** ** Worked examples *)
(* ================================================================== *)

(** Three readable files of five, batch size 2. *)
Lemma pipeline_delivers_each_document_once_witness :
  exists calls : list EngineCall,
    List.concat (batches_of calls)
    = ["text of /docs/a.md"; "text of /docs/b.md"; "text of /docs/d.md"].
Proof.
  destruct (IndexDocs.run_pipeline Demo.three_readable Demo.args0 Demo.indexer0
              (sorted_rglob_md Demo.three_readable "/docs") Demo.g0)
    as [[b|st] w'] eqn:Hrun.
  - vm_compute in Hrun. discriminate Hrun.
  - destruct (pipeline_delivers_each_document_once (H := Demo.scripted_engine)
                Demo.three_readable Demo.args0 Demo.indexer0
                (sorted_rglob_md Demo.three_readable "/docs") Demo.g0 st w' Hrun)
      as (calls & _ & Hcat & _).
    exists calls. rewrite Hcat. reflexivity.
Defined.

Lemma pipeline_reports_skipped_files_witness :
  In "  Skipped /docs/c.md: invalid start byte"
     (stdout (snd (IndexDocs.run_pipeline Demo.three_readable Demo.args0 Demo.indexer0
                     (sorted_rglob_md Demo.three_readable "/docs") Demo.g0))).
Proof.
  destruct (IndexDocs.run_pipeline Demo.three_readable Demo.args0 Demo.indexer0
              (sorted_rglob_md Demo.three_readable "/docs") Demo.g0)
    as [[b|st] w'] eqn:Hrun.
  - vm_compute in Hrun. discriminate Hrun.
  - exact (pipeline_reports_skipped_files (H := Demo.scripted_engine)
             Demo.three_readable Demo.args0 Demo.indexer0
             (sorted_rglob_md Demo.three_readable "/docs") Demo.g0 st w'
             "/docs/c.md" (UnicodeDecodeError "invalid start byte")
             Hrun ltac:(simpl; auto) eq_refl).
Defined.

(** An engine that refuses the second call: the third batch is never sent. *)
Lemma pipeline_stops_at_engine_failure_witness :
  exists (e : Exception) (calls : list EngineCall) (docs rest : list str),
    fst (IndexDocs.run_pipeline Demo.five_files Demo.args0 Demo.indexer0
           (sorted_rglob_md Demo.five_files "/docs") Demo.b0) = inl (Exc e)
    /\ trace (snd (IndexDocs.run_pipeline Demo.five_files Demo.args0 Demo.indexer0
                     (sorted_rglob_md Demo.five_files "/docs") Demo.b0))
       = (calls ++ [CallIndexDocuments Demo.indexer0 docs (inl e)])%list
    /\ readable Demo.five_files (sorted_rglob_md Demo.five_files "/docs")
       = (List.concat (batches_of calls) ++ docs ++ rest)%list.
Proof.
  destruct (IndexDocs.run_pipeline Demo.five_files Demo.args0 Demo.indexer0
              (sorted_rglob_md Demo.five_files "/docs") Demo.b0)
    as [[b|st] w'] eqn:Hrun.
  - destruct (pipeline_stops_at_engine_failure (H := Demo.failing_engine)
                Demo.five_files Demo.args0 Demo.indexer0
                (sorted_rglob_md Demo.five_files "/docs") Demo.b0 b w' Hrun)
      as (e & calls & docs & rest & -> & Htr & _ & Hcat).
    exists e, calls, docs, rest. cbn [fst snd].
    split; [reflexivity|]. split; [exact Htr | exact Hcat].
  - vm_compute in Hrun. discriminate Hrun.
Defined.

(** A batch size of zero: each document on its own. *)
Lemma pipeline_small_batch_size_witness :
  exists calls : list EngineCall,
    map (@List.length str) (batches_of calls) = [1; 1; 1; 1; 1].
Proof.
  destruct (IndexDocs.run_pipeline Demo.five_files (Demo.args_from "/docs" 0 false false)
              Demo.indexer0 (sorted_rglob_md Demo.five_files "/docs") Demo.g0)
    as [[b|st] w'] eqn:Hrun.
  - vm_compute in Hrun. discriminate Hrun.
  - destruct (pipeline_small_batch_size (H := Demo.scripted_engine)
                Demo.five_files (Demo.args_from "/docs" 0 false false) Demo.indexer0
                (sorted_rglob_md Demo.five_files "/docs") Demo.g0 st w'
                ltac:(vm_compute; discriminate) Hrun)
      as (calls & _ & Hb).
    exists calls. rewrite Hb. reflexivity.
Defined.


(** [--openai] with and without [--openai-embed]. *)
Lemma main_openai_ignores_local_options_witness :
  IndexDocs.main Demo.five_files [("OPENAI_API_KEY", "sk-test")]
                 (Demo.args_from "/docs" 2 true true) Demo.g0
  = IndexDocs.main Demo.five_files [("OPENAI_API_KEY", "sk-test")]
                   (Demo.args_from "/docs" 2 true false) Demo.g0.
Proof.
  exact (main_openai_ignores_local_options (H := Demo.scripted_engine)
           Demo.five_files [("OPENAI_API_KEY", "sk-test")]
           (Demo.args_from "/docs" 2 true true) (Demo.args_from "/docs" 2 true false)
           Demo.g0 eq_refl eq_refl eq_refl eq_refl eq_refl eq_refl eq_refl).
Defined.

(** Three readable files of five through the facade. *)
Lemma index_directory_summary_witness :
  fst (McpServer.index_directory Demo.globals0 Demo.three_readable
                                 "/docs" "my-corpus" Demo.g0)
  = inr (join nl ["Indexed 3 files from /docs"; "Session:       my-corpus";
                  "Entities:      3"; "Relationships: 1";
                  "Skipped:       2 unreadable files"])
  /\ 3 + 2 = 5.
Proof.
  destruct (index_directory_summary (H := Demo.scripted_engine)
              Demo.globals0 Demo.three_readable "/docs" "my-corpus" Demo.g0 0 1
              {| entities_extracted := 3; relationships_extracted := 1 |}
              eq_refl ltac:(discriminate) eq_refl eq_refl)
    as [Htext Hcount].
  split; [rewrite Htext; reflexivity | exact Hcount].
Defined.

Lemma index_directory_unreadable_corpus_witness :
  batches_of (trace (snd (McpServer.index_directory Demo.globals0 Demo.none_readable
                                                    "/docs" "my-corpus" Demo.g0)))
  = [[]].
Proof.
  rewrite (index_directory_unreadable_corpus (H := Demo.scripted_engine)
             Demo.globals0 Demo.none_readable "/docs" "my-corpus" Demo.g0 0
             eq_refl ltac:(discriminate) eq_refl eq_refl).
  reflexivity.
Defined.

(** A retrieval with two entities, the first of them described. *)
Lemma query_docs_results_text_witness :
  fst (McpServer.query_docs Demo.globals0 Demo.format_3f "what is gibram" "notes" 5
                            Demo.u0)
  = inr ("Query: what is gibram" ++ nl ++ "Session: notes" ++ nl ++ nl
         ++ join nl ["1. GibRAM  (score: 0.000)"; "   A graph store";
                     "2. Ollama  (score: 0.000)"]).
Proof.
  destruct (query_docs_results_text (H := Demo.answering_engine)
              Demo.globals0 Demo.format_3f "what is gibram" "notes" 5 Demo.u0 tt tt
              {| entities := Demo.two_entities |}
              eq_refl eq_refl ltac:(discriminate))
    as (lines & Htext & -> & _).
  rewrite Htext. reflexivity.
Defined.

Lemma facade_local_ignores_credential_witness :
  McpServer.query_docs Demo.globals_local_with_key Demo.format_3f
                       "what is gibram" "notes" 5 Demo.g0
  = McpServer.query_docs Demo.globals0 Demo.format_3f "what is gibram" "notes" 5 Demo.g0.
Proof.
  exact (proj1 (facade_local_ignores_credential (H := Demo.scripted_engine)
                  Demo.five_files Demo.py_int [] "sk-test"
                  Demo.globals0 Demo.globals_local_with_key Demo.format_3f
                  "what is gibram" "/docs" "notes" 5 Demo.g0
                  eq_refl eq_refl eq_refl)).
Defined.

(** X21: the local backend of the CLI needs no credential and reads none:
    without [--openai] and [--openai-embed], a run is the same under any two
    environments, with or without an [OPENAI_API_KEY]. *)
Theorem main_local_ignores_credential
        (G : Type) (E : Engine G) (fs : FileSystem) (environ environ' : Environ)
        (args : IndexDocs.Args) (w : GW G) :
  remote_requested args = false ->
  IndexDocs.main fs environ args w = IndexDocs.main fs environ' args w.
Proof.
  intros Hlocal.
  rewrite (main_local_ignores_environ fs environ args w Hlocal).
  rewrite (main_local_ignores_environ fs environ' args w Hlocal).
  reflexivity.
Qed.

Lemma main_local_ignores_credential_witness :
  IndexDocs.main Demo.five_files [] Demo.args0 Demo.g0
  = IndexDocs.main Demo.five_files [("OPENAI_API_KEY", "sk-test")] Demo.args0 Demo.g0.
Proof.
  exact (main_local_ignores_credential nat Demo.scripted_engine Demo.five_files
           [] [("OPENAI_API_KEY", "sk-test")] Demo.args0 Demo.g0 eq_refl).
Defined.

(** A run of the CLI whose second indexing call the engine refuses. *)
Lemma main_exit_status_on_failure_witness :
  fst (IndexDocs.main Demo.five_files [] Demo.args0 Demo.b0)
  = inl (Exc (APIError "connection refused"))
  /\ fst (IndexDocs.exit_status (IndexDocs.main Demo.five_files [] Demo.args0) Demo.b0) = 1%Z.
Proof.
  destruct (main_exit_status_on_failure (H := Demo.failing_engine)
              Demo.five_files [] Demo.args0 Demo.b0)
    as (calls & Htr & Hfail).
  vm_compute in Htr. subst calls.
  destruct (Hfail (APIError "connection refused") ltac:(vm_compute; left; reflexivity))
    as (_ & Hres & Hexit).
  split; [exact Hres | exact Hexit].
Defined.

(** A path that does not exist, a directory without markdown files, and a
    directory with five. *)
Lemma index_directory_checks_before_engine_witness :
  McpServer.index_directory Demo.globals0 Demo.empty_dir "/nowhere" "my-corpus" Demo.g0
  = (inr "Error: Directory not found: /nowhere", Demo.g0)
  /\ McpServer.index_directory Demo.globals0 Demo.empty_dir "/empty" "my-corpus" Demo.g0
     = (inr "No markdown files found in /empty", Demo.g0)
  /\ exists r calls,
       trace (snd (McpServer.index_directory Demo.globals0 Demo.five_files
                                             "/docs" "my-corpus" Demo.g0))
       = CallNew (facade_indexer Demo.globals0 "my-corpus") r :: calls.
Proof.
  split; [|split].
  - exact (proj1 (index_directory_checks_before_engine (H := Demo.scripted_engine)
                    Demo.globals0 Demo.empty_dir "/nowhere" "my-corpus" Demo.g0)
                 eq_refl).
  - exact (proj1 (proj2 (index_directory_checks_before_engine (H := Demo.scripted_engine)
                           Demo.globals0 Demo.empty_dir "/empty" "my-corpus" Demo.g0))
                 eq_refl eq_refl).
  - exact (proj2 (proj2 (index_directory_checks_before_engine (H := Demo.scripted_engine)
                           Demo.globals0 Demo.five_files "/docs" "my-corpus" Demo.g0))
                 eq_refl ltac:(discriminate)).
Defined.

(** The indexing call of the facade refused by the engine. *)
Lemma index_directory_propagates_engine_failure_witness :
  fst (McpServer.index_directory Demo.globals0 Demo.five_files "/docs" "my-corpus" Demo.b1)
  = inl (Exc (APIError "connection refused")).
Proof.
  destruct (index_directory_propagates_engine_failure (H := Demo.failing_engine)
              Demo.globals0 Demo.five_files "/docs" "my-corpus" Demo.b1)
    as (calls & Htr & Hfail & _).
  vm_compute in Htr. subst calls.
  destruct (Hfail (APIError "connection refused") ltac:(vm_compute; left; reflexivity))
    as (_ & Hres).
  exact Hres.
Defined.
